(** * code_coverage.py: the coverage scraper and its report, in Rocq

    A shallow embedding of [src/code_coverage.py].  The script drives
    [catkin], reads the text the build prints, extracts two percentages
    per package and prints a size-weighted total.

    Conventions of the embedding:
    - a Python [str] is a [string]; the regular expressions work on its
      characters ([list ascii]), so the streams are ASCII text;
    - a Python [float] holding a percentage is the exact rational ([Q])
      its decimal text denotes; binary rounding is outside the model;
    - an [int] is a [Z];
    - [None] is [None]; an attribute that may be [None] is an [option];
    - a call that prints, starts a process, raises or exits is a
      computation in the monad [M]: the events it performs, in order, and
      how it ended ([Return], [Raise], [SysExit]);
    - an in-place update of a [Package] object returns the new record. *)

From Stdlib Require Import String Ascii List ZArith QArith Qround Bool Lia.
From Stdlib Require Import Lqa.
Import ListNotations.

Local Open Scope string_scope.
Local Open Scope list_scope.

(* ------------------------------------------------------------------ *)
(** ** The data model *)

(** [class Package]: the attributes set by [__init__]. *)
Module Pkg.
Record t : Type := mk {
  name : string;
  path : string;
  lineCount : Z;
  hasTestDir : bool;
  coverage_total : option Q;
  coverage_lines : option Q;
  coverage_functions : option Q;
  weight : option Q
}.

(** The three assignments at the end of [test_package]. *)
Definition set_coverage (p : t) (cl cf ct : Q) : t :=
  mk (name p) (path p) (lineCount p) (hasTestDir p)
     (Some ct) (Some cl) (Some cf) (weight p).
End Pkg.

Definition Package : Type := Pkg.t.

(** The exceptions the script defines, and the built-in ones its
    statements can raise. *)
Inductive exn : Type :=
| BrokenRegexException (which : string)
| PackageNotFoundException (pkg : string) (reply : string)
| TestFailedException
| ValueError
| IndexError
| TypeError
| AttributeError
| ZeroDivisionError
| StatisticsError.

(** The argument of each [sys.exit(...)].  Every one is a string, so the
    interpreter prints it on stderr and the exit status is 1. *)
Inductive exit_msg : Type :=
| ExitNoCoverageData (name : string)
| ExitNoDataGenerated
| ExitBelowThreshold (rounded_threshold : Z).

Definition exit_status (m : exit_msg) : Z := 1.

(** What the script writes on stdout, with the values substituted for
    the [%s] of each format string. *)
Inductive message : Type :=
| MsgTestingName (name : string)
| MsgTesting (pkg : Package)
| MsgNoTests (pkg : Package)
| MsgFound (pkg path : string)
| MsgLinecountZero (path : string)
| MsgPassingOver (name path : string)
| MsgUnavailable (name path : string)
| MsgSummary (name path : string) (cl cf : option Q) (ct : Q)
| MsgCalculation (name : string) (ct : option Q) (lineCount totallines : Z)
| MsgTotal (rounded : Q)
| MsgResultsLine (line : string).

Inductive event : Type :=
| Print (m : message)
| StdoutWrite (line : string)
| StderrUnitTestsFailed (name : string)
| StderrNotFound (name : string)
| SubprocessRun (cmd : string)
| Popen (cmd : string)
| Wait (cmd : string).

(* ------------------------------------------------------------------ *)
(** ** Computations: a trace of events and an ending *)

Inductive ending (A : Type) : Type :=
| Return (a : A)
| Raise (e : exn)
| SysExit (m : exit_msg).
Arguments Return {A} a.
Arguments Raise {A} e.
Arguments SysExit {A} m.

Definition M (A : Type) : Type := (list event * ending A)%type.

Definition ret {A} (a : A) : M A := ([], Return a).
Definition raise {A} (e : exn) : M A := ([], Raise e).
Definition sys_exit {A} (m : exit_msg) : M A := ([], SysExit m).
Definition emit (e : event) : M unit := ([e], Return tt).
Definition print (m : message) : M unit := emit (Print m).

Definition bind {A B} (c : M A) (k : A -> M B) : M B :=
  match c with
  | (t, Return a) => let (t', r) := k a in (t ++ t', r)
  | (t, Raise e) => (t, Raise e)
  | (t, SysExit m) => (t, SysExit m)
  end.

Declare Scope py_scope.
Delimit Scope py_scope with py.
Notation "x <- c ;; k" := (bind c (fun x => k))
  (at level 61, c at next level, right associativity) : py_scope.
Notation "c ;; k" := (bind c (fun _ => k))
  (at level 61, right associativity) : py_scope.
Local Open Scope py_scope.

Definition when (b : bool) (c : M unit) : M unit := if b then c else ret tt.

Definition trace {A} (c : M A) : list event := fst c.
Definition outcome {A} (c : M A) : ending A := snd c.

(** [try: c  except E: h], [handles] telling the exceptions [E] names. *)
Definition try_except {A} (c : M A) (handles : exn -> bool) (h : M A) : M A :=
  match c with
  | (t, Raise e) =>
      if handles e then (let (t', r) := h in (t ++ t', r)) else (t, Raise e)
  | other => other
  end.

Definition is_TestFailed (e : exn) : bool :=
  match e with TestFailedException => true | _ => false end.

Definition is_PackageNotFound (e : exn) : bool :=
  match e with PackageNotFoundException _ _ => true | _ => false end.

(** The status the interpreter exits with. *)
Definition process_status {A} (e : ending A) : Z :=
  match e with
  | Return _ => 0
  | Raise _ => 1
  | SysExit m => exit_status m
  end.

(* ------------------------------------------------------------------ *)
(** ** Python primitives the script relies on *)

Module Py.

(** Truth value of a [float], an [int] or [None]:
    [None], [0] and [0.0] are false. *)
Definition truthy_Q (q : Q) : bool := negb (Qnum q =? 0)%Z.
Definition truthy_Z (z : Z) : bool := negb (z =? 0)%Z.
Definition truthy_opt {A} (f : A -> bool) (o : option A) : bool :=
  match o with Some a => f a | None => false end.

(** [l[i]]: [IndexError] out of range. *)
Definition index {A} (l : list A) (i : nat) : M A :=
  match nth_error l i with
  | Some a => ret a
  | None => raise IndexError
  end.

Definition is_digit (c : ascii) : bool :=
  let n := N_of_ascii c in ((48 <=? n) && (n <=? 57))%N.

Definition digit_val (c : ascii) : Z := Z.of_N (N_of_ascii c) - 48.

(** Value of a run of decimal digits, [acc] being the digits read. *)
Fixpoint digits_val (acc : Z) (ds : list ascii) : Z :=
  match ds with
  | [] => acc
  | d :: ds' => digits_val (10 * acc + digit_val d) ds'
  end.

Fixpoint pow10 (n : nat) : positive :=
  match n with
  | O => 1
  | S n' => 10 * pow10 n'
  end%positive.

Fixpoint span_digits (s : list ascii) : list ascii * list ascii :=
  match s with
  | [] => ([], [])
  | c :: s' =>
      if is_digit c
      then let (ds, r) := span_digits s' in (c :: ds, r)
      else ([], s)
  end.

(** [float(text)] on the texts the scraper hands it: digits, a dot,
    digits.  At least one digit is needed: [float(".")] is a
    [ValueError] ([None] here), [float("5.")] is [5.0] and
    [float(".5")] is [0.5].  Any other shape is not produced by the
    pattern and is rejected.  The value is the decimal as written;
    [float] gives the binary64 number nearest to it. *)
Definition float_of_text (text : list ascii) : option Q :=
  let (ip, r) := span_digits text in
  match r with
  | "."%char :: r' =>
      let (fp, r'') := span_digits r' in
      match r'', (ip ++ fp) with
      | [], _ :: _ =>
          Some (Qmake (digits_val 0 (ip ++ fp)) (pow10 (length fp)))
      | _, _ => None
      end
  | _ => None
  end.

Definition py_float (text : list ascii) : M Q :=
  match float_of_text text with
  | Some q => ret q
  | None => raise ValueError
  end.

(** [statistics.mean(data)]: the sum over the number of items;
    [StatisticsError] on no data. *)
Definition mean (data : list Q) : M Q :=
  match data with
  | [] => raise StatisticsError
  | _ :: _ =>
      ret (fold_left Qplus data (0 # 1) / inject_Z (Z.of_nat (length data)))%Q
  end.

End Py.

(* ------------------------------------------------------------------ *)
(** ** The regular expressions

    A backtracking matcher for the fragment of [re] the script uses:
    single characters and classes, a greedy star over a class, a
    look-behind and a look-ahead over a fixed-width sequence. *)

Module Re.

Inductive atom : Type :=
| Chr (c : ascii)     (* the character itself *)
| Digit               (* [\d], [[0-9]] *)
| AnyChar.            (* [.]: anything but a newline *)

Inductive item : Type :=
| One (a : atom)
| Star (a : atom)             (* [a*], greedy *)
| Ahead (l : list atom)       (* [(?=...)] *)
| Behind (l : list atom).     (* [(?<=...)] *)

Definition pattern : Type := list item.

Definition newline : ascii := "010"%char.

Definition atom_ok (a : atom) (c : ascii) : bool :=
  match a with
  | Chr c' => Ascii.eqb c' c
  | Digit => Py.is_digit c
  | AnyChar => negb (Ascii.eqb c newline)
  end.

(** The atoms of [l] match the first characters of [s], in order. *)
Fixpoint atoms_ok (l : list atom) (s : list ascii) : bool :=
  match l, s with
  | [], _ => true
  | a :: l', c :: s' => atom_ok a c && atoms_ok l' s'
  | _ :: _, [] => false
  end.

Definition lit (s : string) : list atom := map Chr (list_ascii_of_string s).

(** The text before the current position is kept reversed in
    [before]; a match returns the text that follows it. *)
Definition cont : Type := list ascii -> list ascii -> option (list ascii).

(** Greedy star: take one more character when that leads to a
    match, else go on from here. *)
Fixpoint star (a : atom) (k : cont) (before s : list ascii)
  : option (list ascii) :=
  match s with
  | c :: s' =>
      if atom_ok a c
      then match star a k (c :: before) s' with
           | Some r => Some r
           | None => k before s
           end
      else k before s
  | [] => k before s
  end.

Fixpoint run (p : pattern) (k : cont) (before s : list ascii)
  : option (list ascii) :=
  match p with
  | [] => k before s
  | One a :: p' =>
      match s with
      | c :: s' => if atom_ok a c then run p' k (c :: before) s' else None
      | [] => None
      end
  | Star a :: p' => star a (run p' k) before s
  | Ahead l :: p' => if atoms_ok l s then run p' k before s else None
  | Behind l :: p' =>
      if atoms_ok (rev l) before then run p' k before s else None
  end.

(** The text [p] matches at the position between [before] and [s]. *)
Definition match_at (p : pattern) (before s : list ascii)
  : option (list ascii) :=
  match run p (fun _ rest => Some rest) before s with
  | Some rest => Some (firstn (length s - length rest) s)
  | None => None
  end.

(** [re.match(p, line)]: a match at the start of [line], or [None]. *)
Definition re_match (p : pattern) (line : string) : option (list ascii) :=
  match_at p [] (list_ascii_of_string line).

(** [re.findall(p, line)]: the matches from left to right, the scan
    resuming after each one ([skip] characters are still to pass). *)
Fixpoint findall_from (p : pattern) (before : list ascii) (skip : nat)
    (s : list ascii) : list (list ascii) :=
  match skip with
  | S k =>
      match s with
      | [] => []
      | c :: s' => findall_from p (c :: before) k s'
      end
  | O =>
      match match_at p before s with
      | Some m =>
          m :: match s with
               | [] => []
               | c :: s' => findall_from p (c :: before) (pred (length m)) s'
               end
      | None =>
          match s with
          | [] => []
          | c :: s' => findall_from p (c :: before) 0 s'
          end
      end
  end.

Definition findall (p : pattern) (line : string) : list (list ascii) :=
  findall_from p [] 0 (list_ascii_of_string line).

End Re.

(** [re_failed_test = r"(?<=Failed: )[0-9]*(?= packages failed.)"] *)
Definition re_failed_test : Re.pattern :=
  [Re.Behind (Re.lit "Failed: "); Re.Star Re.Digit;
   Re.Ahead (Re.lit " packages failed" ++ [Re.AnyChar])].

(** [re_coverage_pct = r"Overall coverage rate:"] *)
Definition re_coverage_pct : Re.pattern :=
  map Re.One (Re.lit "Overall coverage rate:").

(** [re_line_pct = r"\d*\.\d*(?=%)"] *)
Definition re_line_pct : Re.pattern :=
  [Re.Star Re.Digit; Re.One (Re.Chr "."); Re.Star Re.Digit;
   Re.Ahead [Re.Chr "%"]].

(* ------------------------------------------------------------------ *)
(** ** What the script asks of its surroundings *)

Record world : Type := {
  (** [os.listdir(path)], each name with [os.path.isdir] of its join *)
  listdir : string -> list (string * bool);
  (** the lines read from [proc.stdout] of a started command, each with
      its newline *)
  process_stdout : string -> list string;
  (** what [catkin locate pkg] prints *)
  catkin_locate : string -> string;
  (** the [int(...)] of the last field [cloc | grep] prints for a path,
      [None] when that raises [ValueError] *)
  cloc_count : string -> option Z
}.

Definition lower_char (c : ascii) : ascii :=
  let n := N_of_ascii c in
  if ((65 <=? n) && (n <=? 90))%N then ascii_of_N (n + 32) else c.

Fixpoint lower (s : string) : string :=
  match s with
  | EmptyString => EmptyString
  | String c s' => String (lower_char c) (lower s')
  end.

(** [hasTestDir(path)], for a [path] that [os.listdir] can list. *)
Definition hasTestDir (w : world) (path : string) : bool :=
  existsb (fun e : string * bool => snd e && String.eqb (lower (fst e)) "test")
          (listdir w path).

(** [count_lines_of_code(path)], with [cloc] installed: the
    [except FileNotFoundError: sys.exit(...)] of a missing tool is left
    out. *)
Definition count_lines_of_code (w : world) (path : string) : M Z :=
  emit (Popen ("cloc " ++ path ++ " --quiet --csv")) ;;
  emit (Popen "grep -i ',C++'") ;;
  match cloc_count w path with
  | Some n => ret n
  | None => print (MsgLinecountZero path) ;; ret 0%Z
  end.

(* ------------------------------------------------------------------ *)
(** ** [test_package] *)

(** The locals of the loop over [proc.stdout]. *)
Record scan : Type := {
  pcts : list Q;
  get_pkg_percentages : bool;
  line_coverage : Q;
  function_coverage : Q
}.

Definition scan_init : scan :=
  {| pcts := []; get_pkg_percentages := false;
     line_coverage := 0 # 1; function_coverage := 0 # 1 |}.

(** [num_failed_tests] is the [int] 0 or, after [num_failed_tests =
    match], the match object. *)
Inductive num_failed : Type :=
| FailedInt (n : Z)
| FailedMatch (m : list ascii).

(** [num_failed_tests > 0]: an [int] compares; a match object and an
    [int] do not ([TypeError]). *)
Definition gt_zero (v : num_failed) : M bool :=
  match v with
  | FailedInt n => ret (0 <? n)%Z
  | FailedMatch _ => raise TypeError
  end.

(** [matches = re.findall(re_line_pct, line)], the [if not matches]
    guard and [val = float(matches[0])], shared by both branches. *)
Definition grab_percentage (line : string) : M Q :=
  match Re.findall re_line_pct line with
  | [] => raise (BrokenRegexException "re_line_pct")
  | m0 :: _ => Py.py_float m0
  end.

(** One turn of [for line in proc.stdout]. *)
Definition scan_line (pkg : Package) (suppress_catkin_output : bool)
    (st : scan) (line : string) : M scan :=
  when (negb suppress_catkin_output) (emit (StdoutWrite line)) ;;
  st1 <- (if get_pkg_percentages st then
            match pcts st with
            | [] =>
                val <- grab_percentage line ;;
                ret {| pcts := pcts st ++ [val];
                       get_pkg_percentages := get_pkg_percentages st;
                       line_coverage := val;
                       function_coverage := function_coverage st |}
            | _ :: _ =>
                val <- grab_percentage line ;;
                ret {| pcts := pcts st ++ [val];
                       get_pkg_percentages := false;
                       line_coverage := line_coverage st;
                       function_coverage := val |}
            end
          else ret st) ;;
  let st2 :=
    match Re.re_match re_coverage_pct line with
    | Some _ => {| pcts := pcts st1; get_pkg_percentages := true;
                   line_coverage := line_coverage st1;
                   function_coverage := function_coverage st1 |}
    | None => st1
    end in
  let num_failed_tests :=
    match Re.re_match re_failed_test line with
    | Some m => FailedMatch m
    | None => FailedInt 0
    end in
  failed <- gt_zero num_failed_tests ;;
  if (failed : bool) then
    emit (StderrUnitTestsFailed (Pkg.name pkg)) ;;
    raise TestFailedException
  else ret st2.

Fixpoint scan_lines (pkg : Package) (suppress_catkin_output : bool)
    (lines : list string) (st : scan) : M scan :=
  match lines with
  | [] => ret st
  | line :: rest =>
      st' <- scan_line pkg suppress_catkin_output st line ;;
      scan_lines pkg suppress_catkin_output rest st'
  end.

Definition test_cmd (pkg : Package) (extra_args : list string) : string :=
  "catkin build " ++ Pkg.name pkg ++ " -v --no-status --no-deps "
  ++ String.concat " " extra_args
  ++ " --catkin-make-args " ++ Pkg.name pkg ++ "_coverage_report".

Definition config_cmd (cmake_build_type : string) : string :=
  "catkin config -DENABLE_COVERAGE_TESTING=ON -DCMAKE_BUILD_TYPE="
  ++ cmake_build_type.

(** Lines 118 to 128: after the loop, from its locals [st]. *)
Definition after_scan (pkg : Package) (cmd : string) (st : scan)
  : M (Q * Package) :=
  emit (Wait cmd) ;;
  match pcts st with
  | [] => raise (BrokenRegexException "re_coverage_pct")
  | _ :: _ =>
      p0 <- Py.index (pcts st) 0 ;;
      p1 <- Py.index (pcts st) 1 ;;
      total <- Py.mean [p0; p1] ;;
      ret (total,
           Pkg.set_coverage pkg (line_coverage st) (function_coverage st) total)
  end.

(** [test_package(pkg, extra_args, cmake_build_type,
    suppress_catkin_output, verbose)].  It returns the coverage and
    leaves its three results on [pkg]: the pair of the value returned
    and the package afterwards.  ([pkg] is an object, so the
    [if not pkg] guard never fires.) *)
Definition test_package (w : world) (pkg : Package)
    (extra_args : list string) (cmake_build_type : string)
    (suppress_catkin_output verbose : bool) : M (Q * Package) :=
  when verbose (print (MsgTestingName (Pkg.name pkg))) ;;
  print (MsgTesting pkg) ;;
  emit (SubprocessRun (config_cmd cmake_build_type)) ;;
  emit (Popen (test_cmd pkg extra_args)) ;;
  if negb (hasTestDir w (Pkg.path pkg)) then
    print (MsgNoTests pkg) ;;
    ret (0 # 1, pkg)
  else
    st <- scan_lines pkg suppress_catkin_output
            (process_stdout w (test_cmd pkg extra_args)) scan_init ;;
    after_scan pkg (test_cmd pkg extra_args) st.

(** The defaults of the signature. *)
Definition default_extra_args : list string := ["--force-color"].
Definition default_build_type : string := "Debug".

(* ------------------------------------------------------------------ *)
(** ** [get_path], [get_package] *)

Definition is_space (c : ascii) : bool :=
  let n := N_of_ascii c in
  (((9 <=? n) && (n <=? 13)) || ((28 <=? n) && (n <=? 32)))%N.

Fixpoint lstrip_chars (s : list ascii) : list ascii :=
  match s with
  | c :: s' => if is_space c then lstrip_chars s' else s
  | [] => []
  end.

(** [s.rstrip()] *)
Definition rstrip (s : string) : string :=
  string_of_list_ascii (rev (lstrip_chars (rev (list_ascii_of_string s)))).

(** [get_path(pkg, verbose)], with [catkin] installed: the
    [except FileNotFoundError: sys.exit(...)] of a missing tool is left
    out. *)
Definition get_path (w : world) (pkg : string) (verbose : bool) : M string :=
  emit (Popen ("catkin locate " ++ pkg)) ;;
  let path := catkin_locate w pkg in
  if String.prefix "ERROR" path then
    raise (PackageNotFoundException pkg path)
  else
    when verbose (print (MsgFound pkg (rstrip path))) ;;
    ret (rstrip path).

(** [Package(name, path)]: [__init__] counts the lines and looks for the
    test directory under the [path] it was given. *)
Definition new_Package (w : world) (name : string) (path : string)
  : M Package :=
  self_path <- (if String.eqb path "" then get_path w name true
                else ret path) ;;
  n <- count_lines_of_code w path ;;
  ret (Pkg.mk name self_path n (hasTestDir w path) None None None None).

Definition get_package (w : world) (pkg : string) (verbose : bool)
  : M Package :=
  path <- get_path w pkg verbose ;;
  new_Package w pkg path.

(* ------------------------------------------------------------------ *)
(** ** [print_results] *)

(** What the list [packages] may hold when [remove] compares its items
    with a name: [Package] objects, or strings. *)
Inductive pyval : Type :=
| PkgObj (p : Package)
| StrObj (s : string).

(** [item == x] for a string [x].  [Package] defines no [__eq__], so an
    object is equal only to itself, never to a string. *)
Definition eq_str (item : pyval) (x : string) : bool :=
  match item with
  | StrObj s => String.eqb s x
  | PkgObj _ => false
  end.

(** [l.remove(x)]: drop the first item equal to [x]; [ValueError] when
    there is none. *)
Fixpoint list_remove (l : list pyval) (x : string) : M (list pyval) :=
  match l with
  | [] => raise ValueError
  | item :: l' =>
      if eq_str item x then ret l'
      else (r <- list_remove l' x ;; ret (item :: r))
  end.

(** [for pkg in unfound: ...] *)
Fixpoint drop_unfound (unfound : list string) (packages : list pyval)
  : M (list pyval) :=
  match unfound with
  | [] => ret packages
  | pkg :: rest =>
      emit (StderrNotFound pkg) ;;
      packages' <- list_remove packages pkg ;;
      drop_unfound rest packages'
  end.

(** [pkg.coverage_total] and the like need a [Package]. *)
Definition as_package (v : pyval) : M Package :=
  match v with
  | PkgObj p => ret p
  | StrObj _ => raise AttributeError
  end.

(** [for pkg in packages: # Print summaries], from the running
    [totallines] and [valid_packages]. *)
Fixpoint print_summaries (packages : list pyval) (totallines : Z)
    (valid_packages : list Package) : M (Z * list Package) :=
  match packages with
  | [] => ret (totallines, valid_packages)
  | v :: rest =>
      pkg <- as_package v ;;
      match Pkg.coverage_total pkg with
      | Some ct =>
          if Py.truthy_Q ct then
            print (MsgSummary (Pkg.name pkg) (Pkg.path pkg)
                     (Pkg.coverage_lines pkg) (Pkg.coverage_functions pkg) ct) ;;
            print_summaries rest (totallines + Pkg.lineCount pkg)%Z
                            (valid_packages ++ [pkg])
          else
            print (MsgUnavailable (Pkg.name pkg) (Pkg.path pkg)) ;;
            print_summaries rest totallines valid_packages
      | None =>
          print (MsgUnavailable (Pkg.name pkg) (Pkg.path pkg)) ;;
          print_summaries rest totallines valid_packages
      end
  end.

(** [float(a) / float(b)] on two [int]s: the quotient, which the code
    holds rounded to binary64. *)
Definition float_div (a b : Z) : M Q :=
  if (b =? 0)%Z then raise ZeroDivisionError
  else ret (inject_Z a / inject_Z b)%Q.

(** [float(pkg.coverage_total)] *)
Definition float_of_coverage (ct : option Q) : M Q :=
  match ct with
  | Some q => ret q
  | None => raise TypeError
  end.

(** [for pkg in valid_packages: # Print calculations].  The
    operations and their order are those of line 200; each result is
    taken exact where the code rounds it to binary64. *)
Fixpoint weigh (verbose : bool) (totallines : Z) (valid_packages : list Package)
    (total_weighted_coverage : Q) : M Q :=
  match valid_packages with
  | [] => ret total_weighted_coverage
  | pkg :: rest =>
      when verbose
        (print (MsgCalculation (Pkg.name pkg) (Pkg.coverage_total pkg)
                  (Pkg.lineCount pkg) totallines)) ;;
      share <- float_div (Pkg.lineCount pkg) totallines ;;
      ct <- float_of_coverage (Pkg.coverage_total pkg) ;;
      weigh verbose totallines rest (total_weighted_coverage + share * ct)%Q
  end.

(** [round(x, 2)] of a float: to the nearest hundredth, a tie to the
    even one. *)
Definition round_half_even (q : Q) : Z :=
  let f := Qfloor q in
  match (q - inject_Z f ?= 1 # 2)%Q with
  | Lt => f
  | Gt => (f + 1)%Z
  | Eq => if Z.even f then f else (f + 1)%Z
  end.

Definition round2 (q : Q) : Q :=
  (inject_Z (round_half_even (q * inject_Z 100)) / inject_Z 100)%Q.

(** [round(threshold, 2)] of an [int] is the [int]. *)
Definition round2_int (t : Z) : Z := t.

(** [total_weighted_coverage < threshold], a float against an [int]. *)
Definition lt_int (total : Q) (t : Z) : bool :=
  negb (Qle_bool (inject_Z t) total).

(** [if threshold and total_weighted_coverage < threshold: sys.exit(...)] *)
Definition check_threshold (threshold : option Z) (total : Q) : M unit :=
  match threshold with
  | Some t =>
      if Py.truthy_Z t && lt_int total t
      then sys_exit (ExitBelowThreshold (round2_int t))
      else ret tt
  | None => ret tt
  end.

Fixpoint print_lines (lines : list string) : M unit :=
  match lines with
  | [] => ret tt
  | line :: rest => print (MsgResultsLine line) ;; print_lines rest
  end.

(** Lines 186 to 200 of [print_results]: the two loops, from
    [total_weighted_coverage = 0], [totallines = 0] and
    [valid_packages = []] to the final [total_weighted_coverage]. *)
Definition aggregate (verbose : bool) (packages : list pyval) : M Q :=
  r <- print_summaries packages 0%Z [] ;;
  weigh verbose (fst r) (snd r) (0 # 1).

(** [print_results(packages, unfound, failed, threshold, verbose,
    summaries)].  [unfound=None], the default, cannot be iterated.  The
    output of [catkin_test_results] is read only when [verbose]; that
    the process ends and [wait] returns is taken for granted. *)
Definition print_results (w : world) (packages : list pyval)
    (unfound failed : option (list string)) (threshold : option Z)
    (verbose summaries : bool) : M unit :=
  packages1 <- match unfound with
               | Some names => drop_unfound names packages
               | None => raise TypeError
               end ;;
  match packages1 with
  | [] => sys_exit ExitNoDataGenerated
  | _ :: _ =>
      total <- aggregate verbose packages1 ;;
      print (MsgTotal (round2 total)) ;;
      emit (Popen "catkin_test_results") ;;
      when verbose (print_lines (process_stdout w "catkin_test_results")) ;;
      emit (Wait "catkin_test_results") ;;
      check_threshold threshold total
  end.

(* ------------------------------------------------------------------ *)
(** ** The script body *)

(** The namespace [parser.parse_args] returns. *)
Record args : Type := {
  quiet : bool;
  verbose : option bool;       (* [None] unless [--verbose] *)
  summary : bool;
  threshold : option Z;
  packages : list string
}.

(** [s.split(" ")], [cur] being the piece read so far, reversed. *)
Fixpoint split_space (cur : list ascii) (s : string) : list string :=
  match s with
  | EmptyString => [string_of_list_ascii (rev cur)]
  | String c s' =>
      if Ascii.eqb c " " then string_of_list_ascii (rev cur) :: split_space [] s'
      else split_space (c :: cur) s'
  end.

(** [for pkg in packages: try: test_packages.append(get_package(...))] *)
Fixpoint resolve_all (w : world) (verbose : bool) (names : list string)
    (test_packages : list Package) (unfound_packages : list string)
  : M (list Package * list string) :=
  match names with
  | [] => ret (test_packages, unfound_packages)
  | pkg :: rest =>
      r <- try_except
             (p <- get_package w pkg verbose ;;
              ret (test_packages ++ [p], unfound_packages))
             is_PackageNotFound
             (ret (test_packages, unfound_packages ++ [pkg])) ;;
      resolve_all w verbose rest (fst r) (snd r)
  end.

(** The body of [for pkg in test_packages], for one package: the
    package afterwards and the names added to [failed_packages]. *)
Definition test_one (w : world) (quiet verbose : bool) (pkg : Package)
  : M (Package * list string) :=
  try_except
    (if Pkg.hasTestDir pkg then
       r <- test_package w pkg default_extra_args default_build_type
              quiet verbose ;;
       if negb (Py.truthy_Q (fst r))
       then sys_exit (ExitNoCoverageData (Pkg.name pkg))
       else ret (snd r, [])
     else
       print (MsgPassingOver (Pkg.name pkg) (Pkg.path pkg)) ;;
       ret (pkg, []))
    is_TestFailed
    (ret (pkg, [Pkg.name pkg])).

Fixpoint test_all (w : world) (quiet verbose : bool)
    (test_packages : list Package) (failed_packages : list string)
  : M (list Package * list string) :=
  match test_packages with
  | [] => ret ([], failed_packages)
  | pkg :: rest =>
      r <- test_one w quiet verbose pkg ;;
      r' <- test_all w quiet verbose rest (failed_packages ++ snd r) ;;
      ret (fst r :: fst r', snd r')
  end.

(** [if __name__ == "__main__":] after the arguments are parsed. *)
Definition main (w : world) (a : args) : M unit :=
  let names := match packages a with
               | [one] => split_space [] one
               | l => l
               end in
  let verbose := if quiet a then false
                 else match verbose a with Some b => b | None => false end in
  found <- resolve_all w verbose names [] [] ;;
  tested <- test_all w (quiet a) verbose (fst found) [] ;;
  print_results w (map PkgObj (fst tested)) (Some (snd found))
                (Some (snd tested)) (threshold a) false true.

(* ------------------------------------------------------------------ *)
(** ** The report in the words of the specification

    The sums the specification writes, over a list of packages; the
    theorems compare them with what [aggregate] computes. *)


(** The test of the summary loop: [not (not pkg.coverage_total)]. *)
Definition has_truthy_result (p : Package) : bool :=
  Py.truthy_opt Py.truthy_Q (Pkg.coverage_total p).

Definition coverage_of (p : Package) : Q :=
  match Pkg.coverage_total p with Some c => c | None => 0 # 1 end.

Definition total_lines (l : list Package) : Z :=
  fold_right (fun p acc => (Pkg.lineCount p + acc)%Z) 0%Z l.

(** Sum of [(lineCount / T) * coverageTotal] over [l]. *)
Definition weighted_sum_over (T : Z) (l : list Package) : Q :=
  fold_right
    (fun p acc => (inject_Z (Pkg.lineCount p) / inject_Z T * coverage_of p + acc)%Q)
    (0 # 1) l.

Definition weighted_sum (l : list Package) : Q :=
  weighted_sum_over (total_lines l) l.


(* ------------------------------------------------------------------ *)
(** ** Sample surroundings and streams *)

Definition nl : string := String Re.newline EmptyString.

Definition header_line : string := "Overall coverage rate:" ++ nl.
Definition lines_line (pct : string) : string :=
  "  lines......: " ++ pct ++ "% (171 of 200 lines)" ++ nl.
Definition functions_line (pct : string) : string :=
  "  functions..: " ++ pct ++ "% (9 of 10 functions)" ++ nl.
Definition failed_line : string := "Failed: 1 packages failed." ++ nl.

(** A workspace in which every package directory has a [test]
    subdirectory (or none, when [tests] is false), every build prints
    [stream], and [catkin locate] knows every package but ["b"]. *)
Definition sample_world (tests : bool) (stream : list string) : world :=
  {| listdir := fun _ => if tests then [("src", true); ("Test", true)]
                         else [("src", true); ("test", false)];
     process_stdout := fun cmd =>
       if String.prefix "catkin build " cmd then stream else [];
     catkin_locate := fun pkg =>
       if String.eqb pkg "b" then "ERROR: Could not find package"
       else ("/ws/src/" ++ pkg ++ nl)%string;
     cloc_count := fun _ => Some 100%Z |}.

Definition sample_package (name : string) (lineCount : Z) (tests : bool)
    (coverage : option Q) : Package :=
  Pkg.mk name ("/ws/src/" ++ name)%string lineCount tests
         coverage coverage coverage None.

Definition pkg_a : Package := sample_package "a" 100 true None.

Definition stream_ok : list string :=
  [header_line; lines_line "85.5"; functions_line "100.0"].
Definition stream_failed : list string := [failed_line].
Definition stream_ok_then_failed : list string := stream_ok ++ [failed_line].
Definition stream_one_value : list string := [header_line; lines_line "85.5"].
Definition stream_no_header : list string :=
  [lines_line "85.5"; functions_line "100.0"].
Definition stream_no_percentage : list string :=
  [header_line; "Reading tracefile" ++ nl]%string.
Definition stream_two_values : list string :=
  [header_line; lines_line "10.0"; functions_line "20.0"].
Definition stream_repeated_header : list string :=
  stream_two_values ++ [header_line; lines_line "90.0"].
Definition stream_zero : list string :=
  [header_line; lines_line "0.0"; functions_line "0.0"].

(** The same workspace when [cloc] reports no C++ lines. *)
Definition world_without_lines (stream : list string) : world :=
  {| listdir := listdir (sample_world true stream);
     process_stdout := process_stdout (sample_world true stream);
     catkin_locate := catkin_locate (sample_world true stream);
     cloc_count := fun _ => None |}.

(** [code_coverage.py --quiet a b] *)
Definition args_a_b : args :=
  {| quiet := true; verbose := None; summary := false; threshold := None;
     packages := ["a"; "b"] |}.

(** [code_coverage.py --quiet a] *)
Definition args_a : args :=
  {| quiet := true; verbose := None; summary := false; threshold := None;
     packages := ["a"] |}.

(** The packages [(lines=100, cov=80)] and [(lines=300, cov=40)]. *)
Definition pkgs_100_300 : list Package :=
  [sample_package "a" 100 true (Some 80.0%Q);
   sample_package "c" 300 true (Some 40.0%Q)].


(** A package for which [cloc] found no C++ lines. *)
Definition pkg_no_lines : Package := sample_package "a" 0 true (Some 50.0%Q).

(* ------------------------------------------------------------------ *)
(** ** Definitions used by the proofs *)

(** The ranges of the data model: a line count is not negative, and
    neither is a coverage. *)
Definition valid_data (p : Package) : Prop :=
  (0 <= Pkg.lineCount p)%Z /\ (0 <= coverage_of p)%Q.

(** [re.match(re_coverage_pct, line)] found the header. *)
Definition is_header (line : string) : bool :=
  match Re.re_match re_coverage_pct line with
  | Some _ => true
  | None => false
  end.

(** The locals once the two values [a] and [b] are in. *)
Definition scan_done (a b : Q) : scan :=
  {| pcts := [a; b]; get_pkg_percentages := false;
     line_coverage := a; function_coverage := b |}.

(** What ties [line_coverage] and [function_coverage] to [pcts]. *)
Definition scan_inv (st : scan) : Prop :=
  match pcts st with
  | [] => True
  | a :: tl =>
      line_coverage st = a /\ (tl <> [] -> function_coverage st = last tl a)
  end.

(** The events of the report from the total on. *)
Definition report_tail (w : world) (verbose : bool) (total : Q) : list event :=
  [Print (MsgTotal (round2 total)); Popen "catkin_test_results"]
  ++ (if verbose
      then map (fun line => Print (MsgResultsLine line))
               (process_stdout w "catkin_test_results")
      else [])
  ++ [Wait "catkin_test_results"].

(* ------------------------------------------------------------------ *)
(** ** The text behind [cloc_count]

    [count_lines_of_code] reads what [cloc | grep] prints and calls
    [int(linecount[linecount.rfind(',')+1:])].  The field [cloc_count]
    of a [world] is that value; here it is computed from the text. *)

(** The whitespace [int] skips around an ASCII literal: tab to
    carriage return, and the space (not the separators 28 to 31 that
    [str.rstrip] drops). *)
Definition is_int_space (c : ascii) : bool :=
  let n := N_of_ascii c in
  (((9 <=? n) && (n <=? 13)) || (n =? 32))%N.

Fixpoint lstrip_int (s : list ascii) : list ascii :=
  match s with
  | c :: s' => if is_int_space c then lstrip_int s' else s
  | [] => []
  end.

(** The text of an [int] literal without the whitespace around it. *)
Definition strip_chars (l : list ascii) : list ascii :=
  rev (lstrip_int (rev (lstrip_int l))).

(** The digits of an [int] literal: groups of digits, a single
    underscore allowed between two digits; [prev] tells whether the
    character before was a digit. *)
Fixpoint int_digits (acc : Z) (prev : bool) (l : list ascii) : option Z :=
  match l with
  | [] => if prev then Some acc else None
  | c :: l' =>
      if Py.is_digit c then int_digits (10 * acc + Py.digit_val c) true l'
      else if Ascii.eqb c "_" then
             (if prev then int_digits acc false l' else None)
           else None
  end.

(** [int(text)]: surrounding whitespace is dropped, a sign may come
    first; [None] stands for [ValueError].  (Interpreters that limit
    the length of the literal, to 4300 digits unless told otherwise,
    raise [ValueError] beyond it; that limit is not modelled.) *)
Definition py_int (text : list ascii) : option Z :=
  match strip_chars text with
  | "+"%char :: r => int_digits 0 false r
  | "-"%char :: r => option_map Z.opp (int_digits 0 false r)
  | l => int_digits 0 false l
  end.

(** [s[s.rfind(',')+1:]]: what follows the last comma, the whole of [s]
    when it has none; [cur] is the text since the last comma seen,
    reversed. *)
Fixpoint after_last_comma (cur : list ascii) (l : list ascii) : list ascii :=
  match l with
  | [] => rev cur
  | c :: l' =>
      if Ascii.eqb c "," then after_last_comma [] l'
      else after_last_comma (c :: cur) l'
  end.

Definition parse_linecount (output : string) : option Z :=
  py_int (after_last_comma [] (list_ascii_of_string output)).

(** The surroundings [w] with the line counter printing [cloc_stdout]. *)
Definition with_cloc_output (w : world) (cloc_stdout : string -> string)
  : world :=
  {| listdir := listdir w;
     process_stdout := process_stdout w;
     catkin_locate := catkin_locate w;
     cloc_count := fun path => parse_linecount (cloc_stdout path) |}.

(** The lines a trace wrote with [sys.stdout.write]. *)
Fixpoint echoed (t : list event) : list string :=
  match t with
  | [] => []
  | StdoutWrite line :: t' => line :: echoed t'
  | _ :: t' => echoed t'
  end.

(** The package [get_package] builds for a name the locator knows. *)
Definition located_package (w : world) (pkg : string) : Package :=
  let path := rstrip (catkin_locate w pkg) in
  Pkg.mk pkg path
         (match cloc_count w path with Some n => n | None => 0%Z end)
         (hasTestDir w path) None None None None.

(** The locator answered with an error for [pkg]. *)
Definition is_unfound (w : world) (pkg : string) : bool :=
  String.prefix "ERROR" (catkin_locate w pkg).

(** The namespace [a] with another list of package arguments. *)
Definition with_packages (a : args) (names : list string) : args :=
  {| quiet := quiet a; verbose := verbose a; summary := summary a;
     threshold := threshold a; packages := names |}.

(** Nothing collected or kept by the loop is negative. *)
Definition scan_nonneg (st : scan) : Prop :=
  Forall (fun q => (0 <= q)%Q) (pcts st)
  /\ (0 <= line_coverage st)%Q /\ (0 <= function_coverage st)%Q.

(** What the second loop of the script does to one package: it leaves
    a package without the [hasTestDir] flag as it is, and sets the three
    coverage attributes of the others, the total being truthy. *)
Definition tested (p p' : Package) : Prop :=
  (Pkg.hasTestDir p = false /\ p' = p)
  \/ (Pkg.hasTestDir p = true
      /\ exists cl cf total,
           p' = Pkg.set_coverage p cl cf total
           /\ Py.truthy_Q total = true
           /\ (0 <= cl)%Q /\ (0 <= cf)%Q /\ (0 <= total)%Q).

(** The names the script works on: the arguments, or the pieces of the
    only one. *)
Definition script_names (a : args) : list string :=
  match packages a with
  | [one] => split_space [] one
  | l => l
  end.

(** A build output that holds a coverage report with the values [x]
    and [y]: lines that are no header, the header, a line holding [x],
    a line holding [y] that is no header, lines that are no header. *)
Definition holds_report (stream : list string) (x y : Q) : Prop :=
  exists pre h l1 l2 post,
    stream = pre ++ [h; l1; l2] ++ post
    /\ Forall (fun line => is_header line = false) pre
    /\ is_header h = true
    /\ outcome (grab_percentage l1) = Return x
    /\ outcome (grab_percentage l2) = Return y
    /\ is_header l2 = false
    /\ Forall (fun line => is_header line = false) post.

(** A package the script can test to the end: it has a test directory
    and its build prints a report whose two values have a mean that is
    not zero. *)
Definition testable (w : world) (p : Package) : Prop :=
  Pkg.hasTestDir p = true
  /\ hasTestDir w (Pkg.path p) = true
  /\ exists x y,
       holds_report (process_stdout w (test_cmd p default_extra_args)) x y
       /\ ~ ((x + y) / (2 # 1) == 0)%Q.

(** [p'] is [p] after the testing loop: it carries the two values [x]
    and [y] of the report its build printed, and their mean. *)
Definition has_been_tested (w : world) (p p' : Package) : Prop :=
  exists x y total,
    holds_report (process_stdout w (test_cmd p default_extra_args)) x y
    /\ p' = Pkg.set_coverage p x y total
    /\ (total == (x + y) / (2 # 1))%Q
    /\ Py.truthy_Q total = true.

(** The [verbose] the script passes on: [--quiet] turns it off. *)
Definition script_verbose (a : args) : bool :=
  if quiet a then false
  else match verbose a with Some b => b | None => false end.

(* ------------------------------------------------------------------ *)
(** * Properties *)

(** ** Computations *)

Lemma bind_Return {A B} (t : list event) (a : A) (k : A -> M B) :
  bind (t, Return a) k = (t ++ trace (k a), outcome (k a)).
Proof. unfold bind, trace, outcome. destruct (k a); reflexivity. Qed.

Lemma outcome_bind_Return {A B} (c : M A) (k : A -> M B) (b : B) :
  outcome (bind c k) = Return b ->
  exists a, outcome c = Return a /\ outcome (k a) = Return b.
Proof.
  destruct c as [t [a | e | m]]; simpl; try discriminate.
  intros H. exists a. split; [reflexivity |].
  unfold outcome in *. destruct (k a); exact H.
Qed.

Lemma trace_bind_incl {A B} (c : M A) (k : A -> M B) (e : event) :
  In e (trace c) -> In e (trace (bind c k)).
Proof.
  destruct c as [t [a | x | m]]; simpl; auto.
  intros H. destruct (k a). simpl. apply in_or_app. now left.
Qed.

(** ** The failure marker *)

(** [re.match] tries the pattern at the start of the line only, where
    the look-behind has nothing to look at. *)
Lemma re_failed_test_never_matches (line : string) :
  Re.re_match re_failed_test line = None.
Proof. reflexivity. Qed.

(** ** The scan *)

Lemma scan_line_inv pkg sup st line st' :
  scan_inv st ->
  outcome (scan_line pkg sup st line) = Return st' ->
  scan_inv st'.
Proof.
  intros Hinv H. unfold scan_line in H.
  rewrite re_failed_test_never_matches in H.
  apply outcome_bind_Return in H. destruct H as [_ [_ H]].
  apply outcome_bind_Return in H. destruct H as [st1 [H1 H]].
  simpl in H.
  assert (Hst1 : scan_inv st1).
  { destruct (get_pkg_percentages st).
    - unfold scan_inv in Hinv.
      destruct (pcts st) as [| a tl] eqn:Ep.
      + apply outcome_bind_Return in H1. destruct H1 as [val [_ H1]].
        simpl in H1. injection H1 as <-. unfold scan_inv. simpl.
        split; [reflexivity | congruence].
      + apply outcome_bind_Return in H1. destruct H1 as [val [_ H1]].
        simpl in H1. injection H1 as <-. unfold scan_inv. simpl.
        destruct Hinv as [Hl _]. split; [exact Hl |].
        intros _. now rewrite last_last.
    - simpl in H1. injection H1 as <-. exact Hinv. }
  injection H as <-.
  destruct (Re.re_match re_coverage_pct line); [| exact Hst1].
  exact Hst1.
Qed.

Lemma scan_lines_inv pkg sup lines : forall st st',
  scan_inv st ->
  outcome (scan_lines pkg sup lines st) = Return st' ->
  scan_inv st'.
Proof.
  induction lines as [| line rest IH]; intros st st' Hinv H; simpl in H.
  - injection H as <-. exact Hinv.
  - apply outcome_bind_Return in H. destruct H as [st1 [H1 H]].
    eapply IH; [| exact H]. eapply scan_line_inv; eauto.
Qed.

Lemma outcome_bind_Raise {A B} (c : M A) (k : A -> M B) (e : exn) :
  outcome (bind c k) = Raise e ->
  outcome c = Raise e \/
  exists a, outcome c = Return a /\ outcome (k a) = Raise e.
Proof.
  destruct c as [t [a | x | m]]; simpl; try discriminate.
  - intros H. right. exists a. split; [reflexivity |].
    unfold outcome in *. destruct (k a); exact H.
  - intros H. injection H as ->. now left.
Qed.

Lemma grab_percentage_Raise line e :
  outcome (grab_percentage line) = Raise e ->
  e = BrokenRegexException "re_line_pct" \/ e = ValueError.
Proof.
  unfold grab_percentage, Py.py_float.
  destruct (Re.findall re_line_pct line) as [| m0 ms]; simpl.
  - intros H. injection H as <-. now left.
  - destruct (Py.float_of_text m0); simpl; [discriminate |].
    intros H. injection H as <-. now right.
Qed.

(** The only exceptions a turn of the loop can end with. *)
Lemma scan_line_Raise pkg sup st line e :
  outcome (scan_line pkg sup st line) = Raise e ->
  e = BrokenRegexException "re_line_pct" \/ e = ValueError.
Proof.
  intros H. unfold scan_line in H.
  rewrite re_failed_test_never_matches in H.
  apply outcome_bind_Raise in H. destruct H as [H | [_ [_ H]]].
  { destruct sup; discriminate H. }
  apply outcome_bind_Raise in H. destruct H as [H | [st1 [_ H]]].
  - destruct (get_pkg_percentages st); [| discriminate H].
    destruct (pcts st);
      apply outcome_bind_Raise in H;
      (destruct H as [H | [val [_ H]]];
       [now apply grab_percentage_Raise in H | discriminate H]).
  - simpl in H. discriminate H.
Qed.

Lemma scan_lines_Raise pkg sup lines : forall st e,
  outcome (scan_lines pkg sup lines st) = Raise e ->
  e = BrokenRegexException "re_line_pct" \/ e = ValueError.
Proof.
  induction lines as [| line rest IH]; intros st e H; simpl in H.
  - discriminate H.
  - apply outcome_bind_Raise in H. destruct H as [H | [st1 [_ H]]].
    + now apply scan_line_Raise in H.
    + now apply IH in H.
Qed.

Lemma outcome_bind_eq {A B} (c : M A) (k : A -> M B) (a : A) :
  outcome c = Return a -> outcome (bind c k) = outcome (k a).
Proof.
  destruct c as [t [a' | x | m]]; simpl; try discriminate.
  intros H. injection H as ->. unfold outcome. now destruct (k a).
Qed.

Lemma test_package_outcome w pkg extra_args bt sup verbose :
  hasTestDir w (Pkg.path pkg) = true ->
  outcome (test_package w pkg extra_args bt sup verbose) =
  outcome (st <- scan_lines pkg sup
                   (process_stdout w (test_cmd pkg extra_args)) scan_init ;;
           after_scan pkg (test_cmd pkg extra_args) st).
Proof.
  intros Ht. unfold test_package. rewrite Ht. simpl negb. cbv iota.
  rewrite (outcome_bind_eq _ _ tt) by (destruct verbose; reflexivity).
  rewrite (outcome_bind_eq _ _ tt) by reflexivity.
  rewrite (outcome_bind_eq _ _ tt) by reflexivity.
  rewrite (outcome_bind_eq _ _ tt) by reflexivity.
  reflexivity.
Qed.

(** *** Streams of the expected shape *)

Lemma outcome_scan_line pkg sup st line :
  outcome (scan_line pkg sup st line)
  = outcome
      (st1 <- (if get_pkg_percentages st then
                 match pcts st with
                 | [] =>
                     val <- grab_percentage line ;;
                     ret {| pcts := pcts st ++ [val];
                            get_pkg_percentages := get_pkg_percentages st;
                            line_coverage := val;
                            function_coverage := function_coverage st |}
                 | _ :: _ =>
                     val <- grab_percentage line ;;
                     ret {| pcts := pcts st ++ [val];
                            get_pkg_percentages := false;
                            line_coverage := line_coverage st;
                            function_coverage := val |}
                 end
               else ret st) ;;
       ret (if is_header line
            then {| pcts := pcts st1; get_pkg_percentages := true;
                    line_coverage := line_coverage st1;
                    function_coverage := function_coverage st1 |}
            else st1)).
Proof.
  unfold scan_line. rewrite re_failed_test_never_matches.
  rewrite (outcome_bind_eq _ _ tt) by (now destruct sup).
  unfold is_header.
  destruct (if get_pkg_percentages st then _ else _) as [t [st1 | e | m]];
    simpl; try reflexivity.
  now destruct (Re.re_match re_coverage_pct line).
Qed.

(** Outside the window, a line that is not a header changes nothing. *)
Lemma scan_line_idle pkg sup st line :
  get_pkg_percentages st = false -> is_header line = false ->
  outcome (scan_line pkg sup st line) = Return st.
Proof.
  intros Hg Hh. rewrite outcome_scan_line, Hg, Hh. reflexivity.
Qed.

Lemma scan_lines_idle pkg sup lines st :
  get_pkg_percentages st = false ->
  Forall (fun line => is_header line = false) lines ->
  outcome (scan_lines pkg sup lines st) = Return st.
Proof.
  intros Hg. induction 1 as [| line rest Hh _ IH]; simpl; [reflexivity |].
  rewrite (outcome_bind_eq _ _ st) by (now apply scan_line_idle).
  exact IH.
Qed.

Lemma scan_lines_app pkg sup l1 l2 : forall st st1,
  outcome (scan_lines pkg sup l1 st) = Return st1 ->
  outcome (scan_lines pkg sup (l1 ++ l2) st)
  = outcome (scan_lines pkg sup l2 st1).
Proof.
  induction l1 as [| line rest IH]; intros st st1 H; simpl in *.
  - now injection H as ->.
  - apply outcome_bind_Return in H. destruct H as [st' [H1 H2]].
    rewrite (outcome_bind_eq _ _ st') by exact H1. now apply IH.
Qed.

(** The first line of the window gives [line_coverage]. *)
Lemma scan_line_first pkg sup st line a :
  get_pkg_percentages st = true -> pcts st = [] ->
  outcome (grab_percentage line) = Return a ->
  outcome (scan_line pkg sup st line)
  = Return {| pcts := [a]; get_pkg_percentages := true;
              line_coverage := a;
              function_coverage := function_coverage st |}.
Proof.
  intros Hg Hp H. rewrite outcome_scan_line, Hg, Hp.
  destruct (grab_percentage line) as [t e]. simpl in H. subst e. simpl.
  now destruct (is_header line).
Qed.

(** The second gives [function_coverage] and closes the window. *)
Lemma scan_line_second pkg sup st line a b :
  get_pkg_percentages st = true -> pcts st = [a] ->
  outcome (grab_percentage line) = Return b ->
  is_header line = false ->
  outcome (scan_line pkg sup st line)
  = Return {| pcts := [a; b]; get_pkg_percentages := false;
              line_coverage := line_coverage st;
              function_coverage := b |}.
Proof.
  intros Hg Hp H Hh. rewrite outcome_scan_line, Hg, Hp, Hh.
  destruct (grab_percentage line) as [t e]. simpl in H. subst e.
  reflexivity.
Qed.

(** Lines without a header, the header, a line holding [a], a line
    holding [b] that is not a header, lines without a header: the scan
    ends with the two values. *)
Lemma scan_lines_report pkg sup pre h l1 l2 post a b :
  Forall (fun line => is_header line = false) pre ->
  is_header h = true ->
  outcome (grab_percentage l1) = Return a ->
  outcome (grab_percentage l2) = Return b ->
  is_header l2 = false ->
  Forall (fun line => is_header line = false) post ->
  outcome (scan_lines pkg sup (pre ++ [h; l1; l2] ++ post) scan_init)
  = Return (scan_done a b).
Proof.
  intros Hpre Hh H1 H2 Hl2 Hpost.
  rewrite (scan_lines_app _ _ _ _ _ scan_init)
    by (now apply scan_lines_idle).
  rewrite (scan_lines_app _ _ [h; l1; l2] _ _ (scan_done a b)).
  - now apply scan_lines_idle.
  - cbn [scan_lines].
    erewrite outcome_bind_eq; cycle 1.
    { rewrite outcome_scan_line. cbn [get_pkg_percentages scan_init].
      rewrite Hh. reflexivity. }
    erewrite outcome_bind_eq; cycle 1.
    { now apply (scan_line_first _ _ _ _ a). }
    erewrite outcome_bind_eq; cycle 1.
    { now apply (scan_line_second _ _ _ _ a b). }
    reflexivity.
Qed.


(** [test_package] after a scan that ended with exactly [a] and [b]. *)
Lemma test_package_two_values w pkg extra_args bt sup verbose st a b :
  hasTestDir w (Pkg.path pkg) = true ->
  outcome (scan_lines pkg sup (process_stdout w (test_cmd pkg extra_args))
                      scan_init) = Return st ->
  pcts st = [a; b] ->
  exists total,
    outcome (test_package w pkg extra_args bt sup verbose)
    = Return (total, Pkg.set_coverage pkg a b total)
    /\ (total == (a + b) / (2 # 1))%Q.
Proof.
  intros Ht Hscan Hp.
  assert (Hinv : scan_inv st).
  { eapply scan_lines_inv; [| exact Hscan]. exact I. }
  unfold scan_inv in Hinv. rewrite Hp in Hinv.
  destruct Hinv as [Hl Hf]. simpl in Hf.
  assert (Hf' : function_coverage st = b) by (apply Hf; discriminate).
  exists (((0 # 1) + a + b) / inject_Z (Z.of_nat 2))%Q. split.
  - rewrite test_package_outcome by exact Ht.
    rewrite (outcome_bind_eq _ _ st) by exact Hscan.
    unfold after_scan. rewrite Hp, Hl, Hf'. reflexivity.
  - simpl. field.
Qed.

(** C1.  Whenever the scan of the runner's output ends normally with
    exactly two collected percentages [a] (line coverage) and [b]
    (function coverage), [test_package] returns their mean
    [(a + b) / 2] and leaves [coverage_lines = a],
    [coverage_functions = b] and [coverage_total] = that mean on the
    package, whatever [a] and [b] are.  And the scan does end so on any
    output made of lines without a header, the header, a line holding
    [a], a line holding [b] and lines without a header. *)
Theorem C1_total_is_mean_of_the_two_percentages :
  (forall w pkg extra_args bt sup verbose st a b,
      hasTestDir w (Pkg.path pkg) = true ->
      outcome (scan_lines pkg sup (process_stdout w (test_cmd pkg extra_args))
                          scan_init) = Return st ->
      pcts st = [a; b] ->
      exists total pkg',
        outcome (test_package w pkg extra_args bt sup verbose)
        = Return (total, pkg')
        /\ (total == (a + b) / (2 # 1))%Q
        /\ Pkg.coverage_lines pkg' = Some a
        /\ Pkg.coverage_functions pkg' = Some b
        /\ Pkg.coverage_total pkg' = Some total)
  /\ (forall w pkg extra_args bt sup verbose pre h l1 l2 post a b,
         hasTestDir w (Pkg.path pkg) = true ->
         process_stdout w (test_cmd pkg extra_args)
         = pre ++ [h; l1; l2] ++ post ->
         Forall (fun line => is_header line = false) pre ->
         is_header h = true ->
         outcome (grab_percentage l1) = Return a ->
         outcome (grab_percentage l2) = Return b ->
         is_header l2 = false ->
         Forall (fun line => is_header line = false) post ->
         exists total pkg',
           outcome (test_package w pkg extra_args bt sup verbose)
           = Return (total, pkg')
           /\ (total == (a + b) / (2 # 1))%Q
           /\ Pkg.coverage_lines pkg' = Some a
           /\ Pkg.coverage_functions pkg' = Some b
           /\ Pkg.coverage_total pkg' = Some total).
Proof.
  split.
  - intros w pkg extra_args bt sup verbose st a b Ht Hscan Hp.
    destruct (test_package_two_values w pkg extra_args bt sup verbose
                st a b Ht Hscan Hp) as [total [H1 H2]].
    exists total, (Pkg.set_coverage pkg a b total). now repeat split.
  - intros w pkg extra_args bt sup verbose pre h l1 l2 post a b
           Ht Hout Hpre Hh H1 H2 Hl2 Hpost.
    destruct (test_package_two_values w pkg extra_args bt sup verbose
                (scan_done a b) a b Ht) as [total [H3 H4]].
    + rewrite Hout. now apply scan_lines_report.
    + reflexivity.
    + exists total, (Pkg.set_coverage pkg a b total). now repeat split.
Qed.

Lemma C1_witness :
  exists total pkg',
    outcome (test_package (sample_world true stream_ok) pkg_a
                          default_extra_args default_build_type false true)
    = Return (total, pkg')
    /\ (total == (85.5 + 100.0) / (2 # 1))%Q
    /\ Pkg.coverage_lines pkg' = Some 85.5%Q
    /\ Pkg.coverage_functions pkg' = Some 100.0%Q
    /\ Pkg.coverage_total pkg' = Some total.
Proof.
  apply (proj2 C1_total_is_mean_of_the_two_percentages
           (sample_world true stream_ok) pkg_a default_extra_args
           default_build_type false true
           [] header_line (lines_line "85.5") (functions_line "100.0") []
           85.5%Q 100.0%Q).
  - reflexivity.
  - reflexivity.
  - constructor.
  - reflexivity.
  - vm_compute. reflexivity.
  - vm_compute. reflexivity.
  - reflexivity.
  - constructor.
Defined.

(** ** Exceptions of [test_package] *)

Lemma after_scan_Raise pkg cmd st e :
  outcome (after_scan pkg cmd st) = Raise e ->
  e = BrokenRegexException "re_coverage_pct" \/ e = IndexError.
Proof.
  unfold after_scan.
  destruct (pcts st) as [| p0 [| p1 tl]]; simpl; intros H.
  - injection H as <-. now left.
  - injection H as <-. now right.
  - discriminate H.
Qed.

Lemma test_package_no_tests w pkg extra_args bt sup verbose :
  hasTestDir w (Pkg.path pkg) = false ->
  outcome (test_package w pkg extra_args bt sup verbose) = Return (0 # 1, pkg).
Proof.
  intros Ht. unfold test_package. rewrite Ht. now destruct verbose.
Qed.

(** The exceptions [test_package] can end with: the two
    [BrokenRegexException]s, and the [ValueError] and [IndexError] that
    escape from [float(".")] and [pcts[1]]. *)
Lemma test_package_Raise w pkg extra_args bt sup verbose e :
  outcome (test_package w pkg extra_args bt sup verbose) = Raise e ->
  e = BrokenRegexException "re_line_pct" \/
  e = BrokenRegexException "re_coverage_pct" \/
  e = ValueError \/ e = IndexError.
Proof.
  destruct (hasTestDir w (Pkg.path pkg)) eqn:Ht.
  - rewrite test_package_outcome by exact Ht. intros H.
    apply outcome_bind_Raise in H. destruct H as [H | [st [_ H]]].
    + apply scan_lines_Raise in H. tauto.
    + apply after_scan_Raise in H. tauto.
  - rewrite test_package_no_tests by exact Ht. discriminate.
Qed.

Lemma trace_bind_later {A B} (c : M A) (k : A -> M B) (a : A) (e : event) :
  outcome c = Return a -> In e (trace (k a)) -> In e (trace (bind c k)).
Proof.
  destruct c as [t [a' | x | m]]; simpl; try discriminate.
  intros H. injection H as ->. unfold trace. destruct (k a). simpl.
  intros Hin. apply in_or_app. now right.
Qed.

(** C2.  The failure marker is never detected.  On the stream made of
    the line [Failed: 1 packages failed.] the call ends with the
    [BrokenRegexException] of an empty scan; with the marker after two
    percentages it returns the coverage; and on no stream at all does
    [test_package] raise [TestFailedException]. *)
Theorem C2_failure_marker_is_never_detected :
  outcome (test_package (sample_world true stream_failed) pkg_a
                        default_extra_args default_build_type false true)
  = Raise (BrokenRegexException "re_coverage_pct")
  /\ outcome (test_package (sample_world true stream_ok_then_failed) pkg_a
                           default_extra_args default_build_type false true)
     = Return (18550 # 200, Pkg.set_coverage pkg_a 85.5 100.0 (18550 # 200))%Q
  /\ forall w pkg extra_args bt sup verbose,
       outcome (test_package w pkg extra_args bt sup verbose)
       <> Raise TestFailedException.
Proof.
  split; [vm_compute; reflexivity | split; [vm_compute; reflexivity |]].
  intros w pkg extra_args bt sup verbose H.
  apply test_package_Raise in H.
  destruct H as [H | [H | [H | H]]]; discriminate H.
Qed.

(** C3.  A header followed by a single percentage line ends the call
    with [IndexError], not with [BrokenRegexException]; the exception
    the claim names is raised when no header is seen and when the line
    after the header holds no percentage. *)
Theorem C3_single_percentage_raises_IndexError :
  outcome (test_package (sample_world true stream_one_value) pkg_a
                        default_extra_args default_build_type false true)
  = Raise IndexError
  /\ outcome (test_package (sample_world true stream_no_header) pkg_a
                           default_extra_args default_build_type false true)
     = Raise (BrokenRegexException "re_coverage_pct")
  /\ outcome (test_package (sample_world true stream_no_percentage) pkg_a
                           default_extra_args default_build_type false true)
     = Raise (BrokenRegexException "re_line_pct").
Proof. repeat split; vm_compute; reflexivity. Qed.

(** C4.  A header repeated after the two values makes the next
    percentage overwrite [function_coverage]: the package ends with
    [coverage_functions = 90.0] where the second value was [20.0], and
    with [coverage_total = 15], which is not the mean of its
    [coverage_lines] and [coverage_functions]; the same stream without
    the repeated header and the line after it stores [20.0]. *)
Theorem C4_repeated_header_overwrites_function_coverage :
  exists total pkg',
    outcome (test_package (sample_world true stream_repeated_header) pkg_a
                          default_extra_args default_build_type false true)
    = Return (total, pkg')
    /\ Pkg.coverage_lines pkg' = Some 10.0%Q
    /\ Pkg.coverage_functions pkg' = Some 90.0%Q
    /\ Pkg.coverage_total pkg' = Some total
    /\ (total == 15)%Q
    /\ ~ (total == (10.0 + 90.0) / (2 # 1))%Q
    /\ outcome (test_package (sample_world true stream_two_values) pkg_a
                             default_extra_args default_build_type false true)
       = Return (total, Pkg.set_coverage pkg_a 10.0 20.0 total).
Proof.
  eexists. eexists. split; [vm_compute; reflexivity |].
  repeat split; try reflexivity.
  intros H. vm_compute in H. discriminate H.
Qed.

(** C5.  [test_package] starts the build before it looks for the test
    directory: the [Popen] of the test command is in the trace of every
    call, and for a package without a test directory the call returns 0
    after having started it.  The loop of the script, which tests the
    flag first, starts nothing for such a package. *)
Theorem C5_runner_is_started_before_the_test_dir_check :
  (forall w pkg extra_args bt sup verbose,
      In (Popen (test_cmd pkg extra_args))
         (trace (test_package w pkg extra_args bt sup verbose)))
  /\ test_package (sample_world false stream_ok)
                  (sample_package "a" 100 false None)
                  default_extra_args default_build_type false false
     = ([Print (MsgTesting (sample_package "a" 100 false None));
         SubprocessRun (config_cmd default_build_type);
         Popen (test_cmd (sample_package "a" 100 false None)
                         default_extra_args);
         Print (MsgNoTests (sample_package "a" 100 false None))],
        Return (0 # 1, sample_package "a" 100 false None))
  /\ test_one (sample_world false stream_ok) true false
               (sample_package "a" 100 false None)
     = ([Print (MsgPassingOver "a" "/ws/src/a")],
        Return (sample_package "a" 100 false None, [])).
Proof.
  split; [| split; vm_compute; reflexivity].
  intros w pkg extra_args bt sup verbose. unfold test_package.
  apply (trace_bind_later _ _ tt); [now destruct verbose |].
  apply (trace_bind_later _ _ tt); [reflexivity |].
  apply (trace_bind_later _ _ tt); [reflexivity |].
  apply trace_bind_incl. simpl. now left.
Qed.

(** ** The report *)

Lemma list_remove_objects (pkgs : list Package) (x : string) :
  list_remove (map PkgObj pkgs) x = ([], Raise ValueError).
Proof.
  induction pkgs as [| p rest IH]; simpl; [reflexivity |].
  now rewrite IH.
Qed.

(** With only [Package] objects in the list, the first unfound name
    stops the report. *)
Lemma print_results_unfound w pkgs name rest failed threshold verbose summaries :
  print_results w (map PkgObj pkgs) (Some (name :: rest)) failed threshold
                verbose summaries
  = ([StderrNotFound name], Raise ValueError).
Proof.
  unfold print_results. simpl. now rewrite list_remove_objects.
Qed.

Lemma print_summaries_outcome (pkgs : list Package) : forall T V,
  outcome (print_summaries (map PkgObj pkgs) T V)
  = Return ((T + total_lines (filter has_truthy_result pkgs))%Z,
            V ++ filter has_truthy_result pkgs).
Proof.
  induction pkgs as [| p rest IH]; intros T V; simpl.
  - now rewrite Z.add_0_r, app_nil_r.
  - destruct (has_truthy_result p) eqn:E;
      unfold has_truthy_result, Py.truthy_opt in E;
      destruct (Pkg.coverage_total p) as [c |];
      try rewrite E; try discriminate E.
    + specialize (IH (T + Pkg.lineCount p)%Z (V ++ [p])).
      destruct (print_summaries _ _ _) as [t r]. simpl in *. rewrite IH.
      rewrite <- app_assoc. simpl. now rewrite Z.add_assoc.
    + specialize (IH T V).
      destruct (print_summaries _ _ _) as [t r]. simpl in *. exact IH.
    + specialize (IH T V).
      destruct (print_summaries _ _ _) as [t r]. simpl in *. exact IH.
Qed.

Lemma weigh_outcome verbose T (valid : list Package) : forall acc,
  T <> 0%Z ->
  Forall (fun p => has_truthy_result p = true) valid ->
  exists total,
    outcome (weigh verbose T valid acc) = Return total
    /\ (total == acc + weighted_sum_over T valid)%Q.
Proof.
  intros acc HT Hv. revert acc.
  induction Hv as [| p rest Hp _ IH]; intros acc; cbn [weigh].
  - exists acc. split; [reflexivity |].
    unfold weighted_sum_over. cbn [fold_right]. now rewrite Qplus_0_r.
  - rewrite (outcome_bind_eq _ _ tt) by (now destruct verbose).
    unfold float_div. destruct (Z.eqb_spec T 0) as [E | _]; [contradiction |].
    rewrite (outcome_bind_eq _ _ (inject_Z (Pkg.lineCount p) / inject_Z T)%Q)
      by reflexivity.
    unfold has_truthy_result, Py.truthy_opt in Hp.
    destruct (Pkg.coverage_total p) as [c |] eqn:Ec; [| discriminate Hp].
    assert (Hc : coverage_of p = c) by (unfold coverage_of; now rewrite Ec).
    rewrite (outcome_bind_eq _ _ c) by reflexivity.
    destruct (IH (acc + inject_Z (Pkg.lineCount p) / inject_Z T * c)%Q)
      as [total [H1 H2]].
    exists total. split; [exact H1 |]. rewrite H2.
    unfold weighted_sum_over. cbn [fold_right]. rewrite Hc. ring.
Qed.

Lemma filter_truthy (pkgs : list Package) :
  Forall (fun p => has_truthy_result p = true) (filter has_truthy_result pkgs).
Proof. apply Forall_forall. intros p Hin. now apply filter_In in Hin. Qed.

(** What [aggregate] computes: the weighted sum over the packages whose
    [coverage_total] is truthy. *)
Lemma aggregate_outcome verbose (pkgs : list Package) :
  (filter has_truthy_result pkgs <> [] ->
   total_lines (filter has_truthy_result pkgs) <> 0%Z) ->
  exists total,
    outcome (aggregate verbose (map PkgObj pkgs)) = Return total
    /\ (total == weighted_sum (filter has_truthy_result pkgs))%Q.
Proof.
  intros H. unfold aggregate.
  rewrite (outcome_bind_eq _ _ _ (print_summaries_outcome pkgs 0%Z [])).
  simpl fst. simpl snd. unfold weighted_sum.
  destruct (filter has_truthy_result pkgs) as [| p rest] eqn:E.
  - exists (0 # 1). split; [reflexivity | reflexivity].
  - rewrite <- E in *.
    assert (HT : total_lines (filter has_truthy_result pkgs) <> 0%Z).
    { apply H. rewrite E. discriminate. }
    destruct (weigh_outcome verbose _ _ (0 # 1) HT (filter_truthy pkgs))
      as [total [H1 H2]].
    exists total. split; [exact H1 |]. rewrite H2. ring.
Qed.

(** C6.  With [Package] objects in the list, [packages.remove(name)]
    finds nothing equal to the name: the report writes the diagnostic
    for the first unfound name and ends with [ValueError], before any
    summary.  So does the whole script on the packages ["a"] and ["b"]
    when ["b"] is not found. *)
Theorem C6_unfound_name_ends_the_report_with_ValueError :
  (forall w pkgs name rest failed threshold verbose summaries,
      print_results w (map PkgObj pkgs) (Some (name :: rest)) failed
                    threshold verbose summaries
      = ([StderrNotFound name], Raise ValueError))
  /\ outcome (main (sample_world true stream_ok) args_a_b) = Raise ValueError
  /\ (forall n p cl cf ct,
         ~ In (Print (MsgSummary n p cl cf ct))
              (trace (main (sample_world true stream_ok) args_a_b))).
Proof.
  split; [| split].
  - intros. apply print_results_unfound.
  - vm_compute. reflexivity.
  - intros n p cl cf ct H. vm_compute in H.
    repeat (destruct H as [H | H]; [discriminate H |]). exact H.
Qed.

Lemma truthy_Q_spec (c : Q) : Py.truthy_Q c = true <-> ~ (c == 0)%Q.
Proof.
  unfold Py.truthy_Q, Qeq. simpl.
  rewrite negb_true_iff, Z.eqb_neq. split; intros H; lia.
Qed.







(** ** The threshold *)

Lemma print_lines_eq (lines : list string) :
  print_lines lines
  = (map (fun line => Print (MsgResultsLine line)) lines, Return tt).
Proof.
  induction lines as [| line rest IH]; simpl; [reflexivity |].
  now rewrite IH.
Qed.

Lemma check_threshold_trace threshold total :
  trace (check_threshold threshold total) = [].
Proof.
  unfold check_threshold. destruct threshold as [t |]; [| reflexivity].
  now destruct (Py.truthy_Z t && lt_int total t).
Qed.

(** [print_results] on a non-empty list of objects with nothing
    unfound, once the two loops have produced [total]. *)
Lemma print_results_eq w pkgs failed threshold verbose summaries tr total :
  pkgs <> [] ->
  aggregate verbose (map PkgObj pkgs) = (tr, Return total) ->
  print_results w (map PkgObj pkgs) (Some []) failed threshold verbose summaries
  = (tr ++ report_tail w verbose total,
     outcome (check_threshold threshold total)).
Proof.
  intros Hne Hagg. unfold print_results, report_tail.
  destruct pkgs as [| p rest]; [contradiction |].
  cbn [drop_unfound]. unfold ret at 1. rewrite bind_Return. cbn [map].
  cbn [map] in Hagg. rewrite Hagg.
  pose proof (check_threshold_trace threshold total) as Ht.
  destruct verbose; simpl; rewrite ?print_lines_eq;
    destruct (check_threshold threshold total) as [t0 e0];
    simpl in Ht; subst t0; reflexivity.
Qed.

Lemma total_lines_nonneg (l : list Package) :
  Forall valid_data l -> (0 <= total_lines l)%Z.
Proof.
  induction 1 as [| p rest [Hp _] _ IH]; simpl; lia.
Qed.

Lemma weighted_sum_over_nonneg (T : Z) (l : list Package) :
  (0 <= T)%Z -> Forall valid_data l -> (0 <= weighted_sum_over T l)%Q.
Proof.
  intros HT. induction 1 as [| p rest [Hl Hc] _ IH]; simpl.
  - apply Qle_refl.
  - rewrite <- (Qplus_0_r 0). apply Qplus_le_compat; [| exact IH].
    apply Qmult_le_0_compat; [| exact Hc].
    apply Qmult_le_0_compat.
    + now rewrite Zle_Qle in Hl.
    + apply Qinv_le_0_compat. now rewrite Zle_Qle in HT.
Qed.

Lemma valid_data_filter (f : Package -> bool) (l : list Package) :
  Forall valid_data l -> Forall valid_data (filter f l).
Proof.
  rewrite !Forall_forall. intros H p Hin. apply H.
  now apply filter_In in Hin.
Qed.

(** C8.  For a report over packages within the ranges of the data model
    that reaches the threshold test with weighted total [total]: with
    threshold [t] and [total < t] it ends in [sys.exit] (status 1) with
    the message carrying the rounded threshold, after the same output
    as a run without threshold, the total included; with [t <= total],
    or with no threshold, it returns.  With the total 50 of the
    packages [(100, 80)] and [(300, 40)], threshold 60 exits with
    status 1 and threshold 40 returns. *)
Theorem C8_threshold_decides_the_exit :
  (forall w pkgs failed t verbose summaries,
      pkgs <> [] ->
      Forall valid_data pkgs ->
      (filter has_truthy_result pkgs <> [] ->
       total_lines (filter has_truthy_result pkgs) <> 0%Z) ->
      let run threshold :=
        print_results w (map PkgObj pkgs) (Some []) failed threshold
                      verbose summaries in
      exists total,
        outcome (aggregate verbose (map PkgObj pkgs)) = Return total
        /\ trace (run (Some t)) = trace (run None)
        /\ In (Print (MsgTotal (round2 total))) (trace (run (Some t)))
        /\ ((total < inject_Z t)%Q ->
            outcome (run (Some t))
            = SysExit (ExitBelowThreshold (round2_int t))
            /\ process_status (outcome (run (Some t))) <> 0%Z)
        /\ ((inject_Z t <= total)%Q ->
            outcome (run (Some t)) = Return tt
            /\ process_status (outcome (run (Some t))) = 0%Z)
        /\ outcome (run None) = Return tt)
  /\ (let run threshold :=
        print_results (sample_world true []) (map PkgObj pkgs_100_300)
                      (Some []) (Some []) threshold false true in
      outcome (run (Some 60%Z)) = SysExit (ExitBelowThreshold 60)
      /\ process_status (outcome (run (Some 60%Z))) = 1%Z
      /\ outcome (run (Some 40%Z)) = Return tt
      /\ process_status (outcome (run (Some 40%Z))) = 0%Z).
Proof.
  split; [| repeat split; vm_compute; reflexivity].
  intros w pkgs failed t verbose summaries Hne Hvalid Hlines run.
  destruct (aggregate_outcome verbose pkgs Hlines) as [total [Hagg Hsum]].
  exists total. split; [exact Hagg |].
  assert (Hpos : (0 <= total)%Q).
  { rewrite Hsum. apply weighted_sum_over_nonneg.
    - apply total_lines_nonneg. now apply valid_data_filter.
    - now apply valid_data_filter. }
  destruct (aggregate verbose (map PkgObj pkgs)) as [tr e] eqn:Eagg.
  simpl in Hagg. subst e.
  assert (Hrun : forall th,
             run th = (tr ++ report_tail w verbose total,
                       outcome (check_threshold th total))).
  { intros th. unfold run. now apply print_results_eq. }
  rewrite !Hrun. unfold trace, outcome. cbn [fst snd].
  split; [reflexivity |].
  split; [apply in_or_app; right; now left |].
  unfold check_threshold, lt_int, Py.truthy_Z.
  split; [| split; [| reflexivity]].
  - intros Hlt.
    destruct (Z.eqb_spec t 0) as [-> | _].
    + exfalso. apply (Qlt_not_le _ _ Hlt). exact Hpos.
    + destruct (Qle_bool (inject_Z t) total) eqn:Ele.
      * apply Qle_bool_iff in Ele. exfalso. now apply (Qlt_not_le _ _ Hlt).
      * simpl. split; [reflexivity | discriminate].
  - intros Hle. apply Qle_bool_iff in Hle. rewrite Hle.
    rewrite andb_false_r. now split.
Qed.

Lemma C8_witness :
  pkgs_100_300 <> []
  /\ Forall valid_data pkgs_100_300
  /\ exists total,
       outcome (aggregate true (map PkgObj pkgs_100_300)) = Return total
       /\ In (Print (MsgTotal (round2 total)))
             (trace (print_results (sample_world true stream_ok)
                       (map PkgObj pkgs_100_300) (Some []) None
                       (Some 60%Z) true true)).
Proof.
  assert (Hne : pkgs_100_300 <> []) by discriminate.
  assert (Hv : Forall valid_data pkgs_100_300).
  { repeat constructor; vm_compute; discriminate. }
  assert (Hl : filter has_truthy_result pkgs_100_300 <> [] ->
               total_lines (filter has_truthy_result pkgs_100_300) <> 0%Z).
  { intros _. vm_compute. discriminate. }
  split; [exact Hne | split; [exact Hv |]].
  destruct (proj1 C8_threshold_decides_the_exit (sample_world true stream_ok)
              pkgs_100_300 None 60%Z true true Hne Hv Hl)
    as [total [Hagg [_ [Hin _]]]].
  exists total. split; [exact Hagg | exact Hin].
Defined.

(** C9.  When the line counts of the summed packages add up to 0, the
    first division raises [ZeroDivisionError]: in the loop for any
    non-empty list, in the report over a single package without lines,
    and in the whole script when [cloc] finds no C++ lines for the one
    package tested. *)
Theorem C9_zero_total_lines_raises_ZeroDivisionError :
  (forall verbose pkg rest acc,
      outcome (weigh verbose 0 (pkg :: rest) acc) = Raise ZeroDivisionError)
  /\ print_results (sample_world true []) [PkgObj pkg_no_lines] (Some [])
                   (Some []) None false true
     = ([Print (MsgSummary "a" "/ws/src/a" (Some 50.0%Q) (Some 50.0%Q) 50.0%Q)],
        Raise ZeroDivisionError)
  /\ outcome (main (world_without_lines stream_ok) args_a)
     = Raise ZeroDivisionError.
Proof.
  split; [| split; vm_compute; reflexivity].
  intros verbose pkg rest acc. cbn [weigh].
  rewrite (outcome_bind_eq _ _ tt) by (now destruct verbose).
  reflexivity.
Qed.

(** ** A total of [0.0] *)

Lemma bind_ret_l {A B} (a : A) (k : A -> M B) : bind (ret a) k = k a.
Proof. unfold bind, ret. now destruct (k a). Qed.

Lemma truthy_Q_zero (c : Q) : (c == 0)%Q -> Py.truthy_Q c = false.
Proof.
  intros H. destruct (Py.truthy_Q c) eqn:E; [| reflexivity].
  apply truthy_Q_spec in E. contradiction.
Qed.

(** C10.  A total of [0.0] is handled as no result.  In the loop of the
    script, a call of [test_package] that returns a value equal to 0
    is followed by [sys.exit] with the "no coverage data obtained"
    message; in the summary loop a package whose [coverage_total] is
    [0.0] is printed as unavailable, exactly as one whose
    [coverage_total] is [None], and the running [totallines] and
    [valid_packages] pass it by, so it is left out of the weighted sum.
    A build that prints [0.0%] twice makes the script exit that way. *)
Theorem C10_zero_total_is_treated_as_no_result :
  (forall w quiet verbose pkg tr c pkg',
      Pkg.hasTestDir pkg = true ->
      test_package w pkg default_extra_args default_build_type quiet verbose
      = (tr, Return (c, pkg')) ->
      (c == 0)%Q ->
      test_one w quiet verbose pkg
      = (tr, SysExit (ExitNoCoverageData (Pkg.name pkg))))
  /\ (forall p rest T V,
         (Pkg.coverage_total p = None \/
          exists c, Pkg.coverage_total p = Some c /\ (c == 0)%Q) ->
         print_summaries (PkgObj p :: rest) T V
         = (print (MsgUnavailable (Pkg.name p) (Pkg.path p)) ;;
            print_summaries rest T V)
         /\ has_truthy_result p = false)
  /\ main (sample_world true stream_zero) args_a
     = (trace (main (sample_world true stream_zero) args_a),
        SysExit (ExitNoCoverageData "a")).
Proof.
  split; [| split; [| vm_compute; reflexivity]].
  - intros w quiet verbose pkg tr c pkg' Hdir Hrun Hc.
    unfold test_one. rewrite Hdir, Hrun. simpl.
    rewrite (truthy_Q_zero c Hc). simpl. now rewrite app_nil_r.
  - intros p rest T V H. cbn [print_summaries as_package].
    rewrite bind_ret_l. unfold has_truthy_result, Py.truthy_opt.
    destruct H as [-> | [c [-> Hc]]]; [now split |].
    rewrite (truthy_Q_zero c Hc). now split.
Qed.

Lemma C10_witness :
  Pkg.hasTestDir pkg_a = true
  /\ test_one (sample_world true stream_zero) true false pkg_a
     = (trace (test_package (sample_world true stream_zero) pkg_a
                 default_extra_args default_build_type true false),
        SysExit (ExitNoCoverageData (Pkg.name pkg_a)))
  /\ print_summaries [PkgObj (sample_package "a" 100 true (Some 0.0%Q))] 7 []
     = (print (MsgUnavailable "a" "/ws/src/a") ;; print_summaries [] 7 []).
Proof.
  split; [reflexivity | split].
  - apply (proj1 C10_zero_total_is_treated_as_no_result
             (sample_world true stream_zero) true false pkg_a _
             (0 # 200)%Q (Pkg.set_coverage pkg_a 0.0 0.0 (0 # 200))).
    + reflexivity.
    + vm_compute. reflexivity.
    + reflexivity.
  - apply (proj1 (proj2 C10_zero_total_is_treated_as_no_result)
             (sample_package "a" 100 true (Some 0.0%Q)) [] 7%Z []).
    right. exists 0.0%Q. split; reflexivity.
Defined.

(* ------------------------------------------------------------------ *)
(** * Further properties of the script *)

(** ** [hasTestDir] *)

Lemma lower_char_is (c x X : ascii) :
  lower_char X = x -> lower_char x = x -> x <> X ->
  (forall y, lower_char y = x -> y = x \/ y = X) ->
  lower_char c = x <-> c = x \/ c = X.
Proof.
  intros HX Hx _ Hall. split.
  - apply Hall.
  - intros [-> | ->]; assumption.
Qed.

Lemma lower_char_t (c : ascii) :
  lower_char c = "t"%char <-> c = "t"%char \/ c = "T"%char.
Proof.
  apply lower_char_is; try reflexivity; try discriminate.
  intros y. destruct y as [[] [] [] [] [] [] [] []]; vm_compute;
    intros H; try discriminate H; auto.
Qed.

Lemma lower_char_e (c : ascii) :
  lower_char c = "e"%char <-> c = "e"%char \/ c = "E"%char.
Proof.
  apply lower_char_is; try reflexivity; try discriminate.
  intros y. destruct y as [[] [] [] [] [] [] [] []]; vm_compute;
    intros H; try discriminate H; auto.
Qed.

Lemma lower_char_s (c : ascii) :
  lower_char c = "s"%char <-> c = "s"%char \/ c = "S"%char.
Proof.
  apply lower_char_is; try reflexivity; try discriminate.
  intros y. destruct y as [[] [] [] [] [] [] [] []]; vm_compute;
    intros H; try discriminate H; auto.
Qed.

(** The names [fname.lower() == "test"] accepts. *)
Lemma lower_is_test (fname : string) :
  lower fname = "test" <->
  exists c1 c2 c3 c4,
    fname = String c1 (String c2 (String c3 (String c4 EmptyString)))
    /\ (c1 = "t" \/ c1 = "T")%char /\ (c2 = "e" \/ c2 = "E")%char
    /\ (c3 = "s" \/ c3 = "S")%char /\ (c4 = "t" \/ c4 = "T")%char.
Proof.
  split.
  - destruct fname as [| c1 [| c2 [| c3 [| c4 [| c5 r]]]]]; simpl;
      intros H; try discriminate H.
    injection H as H1 H2 H3 H4.
    exists c1, c2, c3, c4. split; [reflexivity |].
    now rewrite <- !lower_char_t, <- lower_char_e, <- lower_char_s.
  - intros [c1 [c2 [c3 [c4 [-> [H1 [H2 [H3 H4]]]]]]]]. simpl.
    apply lower_char_t in H1, H4. apply lower_char_e in H2.
    apply lower_char_s in H3. now rewrite H1, H2, H3, H4.
Qed.

(** X1.  [hasTestDir(path)] is true exactly when the listing of [path]
    has a directory whose name is [test] in some mix of upper and lower
    case; an entry that is not a directory never counts, whatever its
    name. *)
Theorem X1_hasTestDir_finds_a_directory_named_test :
  forall w path,
    hasTestDir w path = true <->
    exists c1 c2 c3 c4,
      In (String c1 (String c2 (String c3 (String c4 EmptyString))), true)
         (listdir w path)
      /\ (c1 = "t" \/ c1 = "T")%char /\ (c2 = "e" \/ c2 = "E")%char
      /\ (c3 = "s" \/ c3 = "S")%char /\ (c4 = "t" \/ c4 = "T")%char.
Proof.
  intros w path. unfold hasTestDir. rewrite existsb_exists. split.
  - intros [[fname isdir] [Hin H]]. cbn [fst snd] in H.
    apply andb_true_iff in H. destruct H as [-> H].
    apply String.eqb_eq, lower_is_test in H.
    destruct H as [c1 [c2 [c3 [c4 [-> H]]]]].
    now exists c1, c2, c3, c4.
  - intros [c1 [c2 [c3 [c4 [Hin H]]]]].
    eexists. split; [exact Hin |]. cbn [fst snd andb].
    apply String.eqb_eq, lower_is_test. now exists c1, c2, c3, c4.
Qed.

(** ** [get_path] *)

Lemma lstrip_chars_spec (l : list ascii) :
  exists ws,
    l = ws ++ lstrip_chars l
    /\ Forall (fun c => is_space c = true) ws
    /\ (forall c r, lstrip_chars l = c :: r -> is_space c = false).
Proof.
  induction l as [| c l IH]; simpl.
  - exists []. repeat split; [constructor | discriminate].
  - destruct (is_space c) eqn:E.
    + destruct IH as [ws [H1 [H2 H3]]]. exists (c :: ws).
      split; [simpl; now rewrite <- H1 |]. split; [now constructor | exact H3].
    + exists []. repeat split; [constructor |].
      intros c' r H. now injection H as <- _.
Qed.

(** [rstrip] drops a run of whitespace at the end, and all of it. *)
Lemma rstrip_spec (s : string) :
  exists ws,
    list_ascii_of_string s = list_ascii_of_string (rstrip s) ++ ws
    /\ Forall (fun c => is_space c = true) ws
    /\ (forall r c, list_ascii_of_string (rstrip s) = r ++ [c] ->
                    is_space c = false).
Proof.
  unfold rstrip. rewrite list_ascii_of_string_of_list_ascii.
  destruct (lstrip_chars_spec (rev (list_ascii_of_string s)))
    as [ws [H1 [H2 H3]]].
  exists (rev ws). split; [| split].
  - rewrite <- rev_app_distr, <- H1. now rewrite rev_involutive.
  - apply Forall_rev. exact H2.
  - intros r c H. apply (H3 c (rev r)).
    rewrite <- (rev_involutive (lstrip_chars _)), H, rev_app_distr.
    reflexivity.
Qed.

(** X2.  [get_path] raises [PackageNotFoundException], carrying the
    raw answer, exactly when the locator's answer starts with [ERROR];
    otherwise it returns the answer without its trailing whitespace (all
    of it, and nothing else), after printing it when [verbose]. *)
Theorem X2_get_path_strips_the_answer_or_raises :
  forall w pkg verbose,
    if is_unfound w pkg then
      get_path w pkg verbose
      = ([Popen ("catkin locate " ++ pkg)],
         Raise (PackageNotFoundException pkg (catkin_locate w pkg)))
    else
      exists path ws,
        get_path w pkg verbose
        = (Popen ("catkin locate " ++ pkg)
           :: (if verbose then [Print (MsgFound pkg path)] else []),
           Return path)
        /\ list_ascii_of_string (catkin_locate w pkg)
           = list_ascii_of_string path ++ ws
        /\ Forall (fun c => is_space c = true) ws
        /\ (forall r c, list_ascii_of_string path = r ++ [c] ->
                        is_space c = false).
Proof.
  intros w pkg verbose. unfold is_unfound, get_path.
  destruct (String.prefix "ERROR" (catkin_locate w pkg)); [reflexivity |].
  destruct (rstrip_spec (catkin_locate w pkg)) as [ws [H1 [H2 H3]]].
  exists (rstrip (catkin_locate w pkg)), ws.
  split; [now destruct verbose | now repeat split].
Qed.

(** ** [count_lines_of_code] *)

Lemma is_digit_not_space (c : ascii) :
  Py.is_digit c = true -> is_int_space c = false.
Proof.
  destruct c as [[] [] [] [] [] [] [] []]; vm_compute; congruence.
Qed.

Lemma is_digit_not_comma (c : ascii) :
  Py.is_digit c = true -> Ascii.eqb c "," = false.
Proof.
  destruct c as [[] [] [] [] [] [] [] []]; vm_compute; congruence.
Qed.

Lemma is_space_not_comma (c : ascii) :
  is_int_space c = true -> Ascii.eqb c "," = false.
Proof.
  destruct c as [[] [] [] [] [] [] [] []]; vm_compute; congruence.
Qed.

Lemma after_last_comma_none (l : list ascii) : forall cur,
  Forall (fun c => Ascii.eqb c "," = false) l ->
  after_last_comma cur l = rev cur ++ l.
Proof.
  induction l as [| c l IH]; intros cur H; simpl.
  - now rewrite app_nil_r.
  - inversion H as [| c' l' Hc Hl]; subst. rewrite Hc, IH by exact Hl.
    simpl. now rewrite <- app_assoc.
Qed.

(** What precedes a comma is forgotten. *)
Lemma after_last_comma_app (pre l : list ascii) : forall cur,
  after_last_comma cur (pre ++ ","%char :: l) = after_last_comma [] l.
Proof.
  induction pre as [| c pre IH]; intros cur; simpl; [reflexivity |].
  destruct (Ascii.eqb c ","); apply IH.
Qed.

Lemma int_digits_digits (ds : list ascii) : forall acc prev,
  Forall (fun c => Py.is_digit c = true) ds ->
  ds <> [] \/ prev = true ->
  int_digits acc prev ds = Some (Py.digits_val acc ds).
Proof.
  induction ds as [| d ds IH]; intros acc prev H Hne; simpl.
  - destruct Hne as [Hne | ->]; [contradiction | reflexivity].
  - inversion H as [| d' ds' Hd Hds]; subst. rewrite Hd.
    apply IH; [exact Hds | now right].
Qed.

Lemma lstrip_int_spaces (ws l : list ascii) :
  Forall (fun c => is_int_space c = true) ws ->
  lstrip_int (ws ++ l) = lstrip_int l.
Proof.
  induction 1 as [| c ws Hc _ IH]; simpl; [reflexivity |].
  now rewrite Hc.
Qed.

Lemma lstrip_int_digits (ds : list ascii) :
  Forall (fun c => Py.is_digit c = true) ds -> lstrip_int ds = ds.
Proof.
  destruct 1 as [| d ds Hd _]; simpl; [reflexivity |].
  now rewrite (is_digit_not_space d Hd).
Qed.

Lemma strip_chars_digits (ds ws : list ascii) :
  Forall (fun c => Py.is_digit c = true) ds -> ds <> [] ->
  Forall (fun c => is_int_space c = true) ws ->
  strip_chars (ds ++ ws) = ds.
Proof.
  intros Hd Hne Hw. unfold strip_chars.
  destruct ds as [| d ds]; [contradiction |].
  inversion Hd as [| d' ds' Hd1 Hd2]; subst.
  assert (E : lstrip_int ((d :: ds) ++ ws) = (d :: ds) ++ ws).
  { simpl. now rewrite (is_digit_not_space d Hd1). }
  rewrite E, rev_app_distr, lstrip_int_spaces by now apply Forall_rev.
  rewrite lstrip_int_digits by now apply Forall_rev.
  apply rev_involutive.
Qed.

Lemma py_int_digits (ds ws : list ascii) :
  Forall (fun c => Py.is_digit c = true) ds -> ds <> [] ->
  Forall (fun c => is_int_space c = true) ws ->
  py_int (ds ++ ws) = Some (Py.digits_val 0 ds).
Proof.
  intros Hd Hne Hw. unfold py_int.
  rewrite (strip_chars_digits ds ws Hd Hne Hw).
  rewrite <- (int_digits_digits ds 0 false Hd (or_introl Hne)).
  destruct ds as [| d ds]; [contradiction |].
  inversion Hd as [| d' ds' Hd1 _]; subst.
  destruct d as [[] [] [] [] [] [] [] []];
    try discriminate Hd1; reflexivity.
Qed.

(** X3.  [count_lines_of_code] returns the number written after the
    last comma of what [cloc | grep] printed, whatever precedes that
    comma (an earlier line, with its own count, is not added) and
    whatever whitespace [int] accepts (tab, newline, vertical tab, form
    feed, carriage return, space) follows the digits, for a number of
    at most 4300 digits (beyond which recent interpreters refuse the
    conversion); it starts the two processes and prints nothing.  When
    nothing was printed at all it prints its warning and returns 0. *)
Theorem X3_line_count_is_the_last_field_of_the_output :
  forall w cloc_stdout path,
    (forall pre ds ws,
        list_ascii_of_string (cloc_stdout path) = pre ++ ","%char :: ds ++ ws ->
        ds <> [] ->
        (length ds <= 4300)%nat ->
        Forall (fun c => Py.is_digit c = true) ds ->
        Forall (fun c => is_int_space c = true) ws ->
        count_lines_of_code (with_cloc_output w cloc_stdout) path
        = ([Popen ("cloc " ++ path ++ " --quiet --csv");
            Popen "grep -i ',C++'"],
           Return (Py.digits_val 0 ds)))
    /\ (cloc_stdout path = "" ->
        count_lines_of_code (with_cloc_output w cloc_stdout) path
        = ([Popen ("cloc " ++ path ++ " --quiet --csv");
            Popen "grep -i ',C++'"; Print (MsgLinecountZero path)],
           Return 0%Z)).
Proof.
  intros w cloc_stdout path. split.
  - intros pre ds ws Hout Hne _ Hd Hw.
    unfold count_lines_of_code, with_cloc_output, parse_linecount.
    cbn [cloc_count]. rewrite Hout, after_last_comma_app.
    rewrite after_last_comma_none.
    + simpl rev. simpl app at 1. now rewrite py_int_digits.
    + apply Forall_app. split.
      * eapply Forall_impl; [| exact Hd]. apply is_digit_not_comma.
      * eapply Forall_impl; [| exact Hw]. apply is_space_not_comma.
  - intros Hout.
    unfold count_lines_of_code, with_cloc_output, parse_linecount.
    cbn [cloc_count]. now rewrite Hout.
Qed.

Lemma X3_witness :
  count_lines_of_code
    (with_cloc_output (sample_world true [])
       (fun _ => "3,C++,100,50,1234" ++ nl ++ "8,C/C++ Header,10,20,56" ++ nl)%string)
    "/ws/src/a"
  = ([Popen "cloc /ws/src/a --quiet --csv"; Popen "grep -i ',C++'"],
     Return 56%Z).
Proof.
  apply (proj1 (X3_line_count_is_the_last_field_of_the_output
                  (sample_world true []) _ "/ws/src/a")
           (list_ascii_of_string
              ("3,C++,100,50,1234" ++ nl ++ "8,C/C++ Header,10,20"))
           (list_ascii_of_string "56")
           (list_ascii_of_string nl)).
  - reflexivity.
  - discriminate.
  - simpl. lia.
  - repeat constructor.
  - repeat constructor.
Defined.

(** ** The package arguments *)

Lemma string_of_list_ascii_app (l1 l2 : list ascii) :
  string_of_list_ascii (l1 ++ l2)
  = (string_of_list_ascii l1 ++ string_of_list_ascii l2)%string.
Proof. induction l1 as [| c l1 IH]; simpl; [reflexivity | now rewrite IH]. Qed.

Lemma split_space_nonempty (s : string) : forall cur,
  exists x xs, split_space cur s = x :: xs.
Proof.
  induction s as [| c s IH]; intros cur; simpl; [eauto |].
  destruct (Ascii.eqb c " "); [eauto | apply IH].
Qed.

Lemma append_assoc (s1 s2 s3 : string) :
  ((s1 ++ s2) ++ s3 = s1 ++ (s2 ++ s3))%string.
Proof. induction s1 as [| c s1 IH]; simpl; [reflexivity | now rewrite IH]. Qed.

(** Joining the pieces with spaces gives the text back. *)
Lemma split_space_concat (s : string) : forall cur,
  String.concat " " (split_space cur s)
  = (string_of_list_ascii (rev cur) ++ s)%string.
Proof.
  induction s as [| c s IH]; intros cur; simpl.
  - clear. induction (rev cur) as [| c l IH]; simpl; [reflexivity |].
    now rewrite <- IH.
  - destruct (Ascii.eqb_spec c " ") as [-> | _].
    + destruct (split_space_nonempty s []) as [x [xs E]].
      specialize (IH []). rewrite E in *.
      change (String.concat " " (?h :: x :: xs))
        with (h ++ " " ++ String.concat " " (x :: xs))%string.
      rewrite IH. reflexivity.
    + rewrite IH. simpl. rewrite string_of_list_ascii_app, append_assoc.
      reflexivity.
Qed.

Lemma split_space_no_space (s : string) : forall cur,
  Forall (fun c => c <> " "%char) cur ->
  Forall (fun piece =>
            Forall (fun c => c <> " "%char) (list_ascii_of_string piece))
         (split_space cur s).
Proof.
  induction s as [| c s IH]; intros cur Hcur; simpl.
  - constructor; [| constructor].
    rewrite list_ascii_of_string_of_list_ascii. now apply Forall_rev.
  - destruct (Ascii.eqb_spec c " ") as [-> | Hc].
    + constructor; [| apply IH; constructor].
      rewrite list_ascii_of_string_of_list_ascii. now apply Forall_rev.
    + apply IH. now constructor.
Qed.

Lemma split_space_length (s : string) : forall cur,
  length (split_space cur s)
  = S (count_occ ascii_dec (list_ascii_of_string s) " "%char).
Proof.
  induction s as [| c s IH]; intros cur; simpl; [reflexivity |].
  destruct (Ascii.eqb_spec c " ") as [-> | Hc].
  - simpl. rewrite IH. now destruct (ascii_dec " " " ").
  - rewrite IH. destruct (ascii_dec c " "); [contradiction | reflexivity].
Qed.

(** X4.  [packages[0].split(" ")] cuts the argument at every single
    space: there is one piece more than there are spaces, no piece
    holds a space, and joining the pieces with spaces gives the
    argument back (so two spaces in a row give an empty name). *)
Theorem X4_split_cuts_at_every_space :
  forall one,
    String.concat " " (split_space [] one) = one
    /\ length (split_space [] one)
       = S (count_occ ascii_dec (list_ascii_of_string one) " "%char)
    /\ Forall (fun piece =>
                 Forall (fun c => c <> " "%char) (list_ascii_of_string piece))
              (split_space [] one).
Proof.
  intros one. split; [| split].
  - apply (split_space_concat one []).
  - apply split_space_length.
  - apply split_space_no_space. constructor.
Qed.

(** X5.  Giving the package names as one quoted argument is the same as
    giving them as separate arguments: the script behaves on [one] as
    on the pieces of [one]. *)
Theorem X5_one_quoted_argument_is_its_pieces :
  forall w a one,
    main w (with_packages a [one])
    = main w (with_packages a (split_space [] one)).
Proof.
  intros w a one. unfold main, with_packages.
  cbn [packages quiet verbose threshold].
  destruct (split_space [] one) as [| x [| y l]] eqn:E; try reflexivity.
  pose proof (split_space_concat one []) as H. rewrite E in H.
  simpl in H. subst x. now rewrite E.
Qed.

(** ** [get_package] and the first loop of the script *)

Lemma outcome_try_except {A} (c : M A) (handles : exn -> bool) (h : M A) :
  outcome (try_except c handles h)
  = match outcome c with
    | Raise e => if handles e then outcome h else Raise e
    | other => other
    end.
Proof.
  destruct c as [t [a | e | m]]; simpl; try reflexivity.
  destruct (handles e); [now destruct h | reflexivity].
Qed.

Lemma get_path_outcome w pkg verbose :
  outcome (get_path w pkg verbose)
  = if is_unfound w pkg
    then Raise (PackageNotFoundException pkg (catkin_locate w pkg))
    else Return (rstrip (catkin_locate w pkg)).
Proof.
  unfold get_path, is_unfound.
  destruct (String.prefix "ERROR" (catkin_locate w pkg)); [reflexivity |].
  now destruct verbose.
Qed.

Lemma count_lines_of_code_outcome w path :
  outcome (count_lines_of_code w path)
  = Return (match cloc_count w path with Some n => n | None => 0%Z end).
Proof.
  unfold count_lines_of_code. now destruct (cloc_count w path).
Qed.

Lemma get_package_outcome w pkg verbose :
  outcome (get_package w pkg verbose)
  = if is_unfound w pkg
    then Raise (PackageNotFoundException pkg (catkin_locate w pkg))
    else Return (located_package w pkg).
Proof.
  unfold get_package.
  pose proof (get_path_outcome w pkg verbose) as Hv.
  pose proof (get_path_outcome w pkg true) as Ht.
  destruct (is_unfound w pkg).
  - destruct (get_path w pkg verbose) as [t e]. simpl in Hv. now subst e.
  - rewrite (outcome_bind_eq _ _ _ Hv). unfold new_Package.
    assert (Hs : outcome (if String.eqb (rstrip (catkin_locate w pkg)) ""
                          then get_path w pkg true
                          else ret (rstrip (catkin_locate w pkg)))
                 = Return (rstrip (catkin_locate w pkg))).
    { now destruct (String.eqb (rstrip (catkin_locate w pkg)) ""). }
    rewrite (outcome_bind_eq _ _ _ Hs).
    rewrite (outcome_bind_eq _ _ _ (count_lines_of_code_outcome w _)).
    reflexivity.
Qed.

Lemma resolve_all_outcome w verbose names : forall found unfound,
  outcome (resolve_all w verbose names found unfound)
  = Return (found ++ map (located_package w)
                         (filter (fun n => negb (is_unfound w n)) names),
            unfound ++ filter (is_unfound w) names).
Proof.
  induction names as [| pkg rest IH]; intros found unfound; simpl.
  - now rewrite !app_nil_r.
  - assert (H : outcome
                  (try_except
                     (p <- get_package w pkg verbose ;;
                      ret (found ++ [p], unfound))
                     is_PackageNotFound
                     (ret (found, unfound ++ [pkg])))
                = Return (if is_unfound w pkg
                          then (found, unfound ++ [pkg])
                          else (found ++ [located_package w pkg], unfound))).
    { rewrite outcome_try_except.
      pose proof (get_package_outcome w pkg verbose) as Hp.
      destruct (get_package w pkg verbose) as [t e]. simpl in Hp. subst e.
      now destruct (is_unfound w pkg). }
    rewrite (outcome_bind_eq _ _ _ H), IH.
    destruct (is_unfound w pkg); simpl; now rewrite <- !app_assoc.
Qed.

(** X6.  Whenever the first loop of the script ends normally (the
    tools are there and every path can be listed), it has made a fresh
    [Package] (no coverage yet, the stripped path, the counted lines or
    0) for each name the locator knows, in the order given, and has put
    aside the names it answered [ERROR] for, in the order given: no
    name is lost and none is added. *)
Theorem X6_resolution_sorts_the_names_and_loses_none :
  forall w v names found unfound,
    outcome (resolve_all w v names [] []) = Return (found, unfound) ->
    found = map (located_package w)
                (filter (fun n => negb (is_unfound w n)) names)
    /\ unfound = filter (is_unfound w) names.
Proof.
  intros w v names found unfound H.
  rewrite (resolve_all_outcome w v names [] []) in H.
  cbn [app] in H. injection H as <- <-. now split.
Qed.

Lemma X6_witness :
  [located_package (sample_world true stream_ok) "a"]
  = map (located_package (sample_world true stream_ok))
        (filter (fun n => negb (is_unfound (sample_world true stream_ok) n))
                ["a"; "b"])
  /\ ["b"] = filter (is_unfound (sample_world true stream_ok)) ["a"; "b"].
Proof.
  apply (X6_resolution_sorts_the_names_and_loses_none
           (sample_world true stream_ok) false ["a"; "b"]).
  vm_compute. reflexivity.
Defined.

(** ** [test_package]: the ending by the number of values collected *)

Lemma last_cons_default {A} (l : list A) : forall x d,
  last (x :: l) d = last l x.
Proof.
  induction l as [| y l IH]; intros x d; [reflexivity |].
  change (last (x :: y :: l) d) with (last (y :: l) d).
  rewrite IH. symmetry. apply IH.
Qed.

Lemma outcome_bind_SysExit {A B} (c : M A) (k : A -> M B) (m : exit_msg) :
  outcome (bind c k) = SysExit m ->
  outcome c = SysExit m \/
  exists a, outcome c = Return a /\ outcome (k a) = SysExit m.
Proof.
  destruct c as [t [a | x | m']]; simpl; try discriminate.
  - intros H. right. exists a. split; [reflexivity |].
    unfold outcome in *. destruct (k a); exact H.
  - intros H. injection H as ->. now left.
Qed.

Lemma grab_percentage_no_exit line m :
  outcome (grab_percentage line) <> SysExit m.
Proof.
  unfold grab_percentage, Py.py_float.
  destruct (Re.findall re_line_pct line) as [| m0 ms]; [discriminate |].
  destruct (Py.float_of_text m0); discriminate.
Qed.

(** The loop never calls [sys.exit]. *)
Lemma scan_line_no_exit pkg sup st line m :
  outcome (scan_line pkg sup st line) <> SysExit m.
Proof.
  rewrite outcome_scan_line. intros H.
  apply outcome_bind_SysExit in H. destruct H as [H | [st1 [_ H]]].
  - destruct (get_pkg_percentages st); [| discriminate H].
    destruct (pcts st);
      apply outcome_bind_SysExit in H;
      (destruct H as [H | [val [_ H]]];
       [now apply grab_percentage_no_exit in H | discriminate H]).
  - discriminate H.
Qed.

Lemma scan_lines_no_exit pkg sup lines : forall st m,
  outcome (scan_lines pkg sup lines st) <> SysExit m.
Proof.
  induction lines as [| line rest IH]; intros st m H; simpl in H.
  - discriminate H.
  - apply outcome_bind_SysExit in H. destruct H as [H | [st1 [_ H]]].
    + now apply scan_line_no_exit in H.
    + now apply IH in H.
Qed.

(** X7.  For a package with a test directory, how [test_package] ends
    is fixed by how the scan ends.  An exception of the scan is passed
    on.  After a normal scan: no value collected gives the
    [BrokenRegexException] for [re_coverage_pct]; one value gives
    [IndexError]; two or more give the mean of the first two as the
    total, the first as [coverage_lines] and the last one collected as
    [coverage_functions]. *)
Theorem X7_ending_by_number_of_values :
  forall w pkg extra_args bt sup v,
    hasTestDir w (Pkg.path pkg) = true ->
    match outcome (scan_lines pkg sup
                     (process_stdout w (test_cmd pkg extra_args)) scan_init)
    with
    | Return st =>
        match pcts st with
        | [] =>
            outcome (test_package w pkg extra_args bt sup v)
            = Raise (BrokenRegexException "re_coverage_pct")
        | [a] =>
            outcome (test_package w pkg extra_args bt sup v) = Raise IndexError
        | a :: b :: tl =>
            exists total,
              outcome (test_package w pkg extra_args bt sup v)
              = Return (total, Pkg.set_coverage pkg a (last tl b) total)
              /\ (total == (a + b) / (2 # 1))%Q
        end
    | Raise e =>
        outcome (test_package w pkg extra_args bt sup v) = Raise e
        /\ (e = BrokenRegexException "re_line_pct" \/ e = ValueError)
    | SysExit _ => False
    end.
Proof.
  intros w pkg extra_args bt sup v Ht.
  rewrite test_package_outcome by exact Ht.
  destruct (outcome (scan_lines pkg sup
                       (process_stdout w (test_cmd pkg extra_args))
                       scan_init)) as [st | e | m] eqn:E.
  - assert (Hinv : scan_inv st).
    { apply (scan_lines_inv pkg sup
               (process_stdout w (test_cmd pkg extra_args)) scan_init st);
        [exact I | exact E]. }
    unfold scan_inv in Hinv.
    rewrite (outcome_bind_eq _ _ st) by exact E.
    unfold after_scan. destruct (pcts st) as [| a [| b tl]] eqn:Ep.
    + reflexivity.
    + reflexivity.
    + destruct Hinv as [Hl Hf].
      exists (((0 # 1) + a + b) / inject_Z (Z.of_nat 2))%Q. split.
      * rewrite Hl, Hf, last_cons_default by discriminate. reflexivity.
      * simpl. field.
  - split.
    + destruct (scan_lines pkg sup _ scan_init) as [t o].
      simpl in E. now subst o.
    + now apply (scan_lines_Raise pkg sup
                   (process_stdout w (test_cmd pkg extra_args)) scan_init).
  - now apply (scan_lines_no_exit pkg sup
                 (process_stdout w (test_cmd pkg extra_args)) scan_init m).
Qed.

Lemma X7_witness :
  hasTestDir (sample_world true stream_repeated_header) (Pkg.path pkg_a) = true
  /\ exists total,
       outcome (test_package (sample_world true stream_repeated_header) pkg_a
                             default_extra_args default_build_type true false)
       = Return (total, Pkg.set_coverage pkg_a 10.0 90.0 total)
       /\ (total == (10.0 + 20.0) / (2 # 1))%Q.
Proof.
  split; [reflexivity |].
  exact (X7_ending_by_number_of_values
           (sample_world true stream_repeated_header) pkg_a
           default_extra_args default_build_type true false eq_refl).
Defined.

(** ** The percentage pattern and [float] *)

Lemma star_sound (a : Re.atom) (k : Re.cont) (s : list ascii) :
  forall before r,
    Re.star a k before s = Some r ->
    exists ds rest,
      s = ds ++ rest
      /\ Forall (fun c => Re.atom_ok a c = true) ds
      /\ k (rev ds ++ before) rest = Some r.
Proof.
  induction s as [| c s IH]; intros before r H; simpl in H.
  - exists [], []. now repeat split.
  - destruct (Re.atom_ok a c) eqn:Ec.
    + destruct (Re.star a k (c :: before) s) as [r' |] eqn:Es.
      * injection H as <-. apply IH in Es.
        destruct Es as [ds [rest [-> [Hd Hk]]]].
        exists (c :: ds), rest. split; [reflexivity |].
        split; [now constructor |].
        simpl. now rewrite <- app_assoc.
      * exists [], (c :: s). now repeat split.
    + exists [], (c :: s). now repeat split.
Qed.

(** A match of [re_line_pct]: digits, a dot, digits, and a [%] next. *)
Lemma match_line_pct_shape (before s m : list ascii) :
  Re.match_at re_line_pct before s = Some m ->
  exists d1 d2 rest,
    m = d1 ++ "."%char :: d2
    /\ s = m ++ "%"%char :: rest
    /\ Forall (fun c => Py.is_digit c = true) d1
    /\ Forall (fun c => Py.is_digit c = true) d2.
Proof.
  unfold Re.match_at, re_line_pct. cbn [Re.run].
  destruct (Re.star _ _ before s) as [r |] eqn:E; [| discriminate].
  intros H. injection H as <-.
  apply star_sound in E. destruct E as [d1 [r1 [-> [Hd1 E]]]].
  destruct r1 as [| c r1]; [discriminate E |].
  destruct (Re.atom_ok (Re.Chr ".") c) eqn:Ec; [| discriminate E].
  cbn [Re.atom_ok] in Ec. apply Ascii.eqb_eq in Ec. subst c.
  apply star_sound in E. destruct E as [d2 [r2 [-> [Hd2 E]]]].
  cbn [Re.run] in E.
  destruct (Re.atoms_ok [Re.Chr "%"] r2) eqn:Ea; [| discriminate E].
  injection E as <-.
  destruct r2 as [| c2 rest]; [discriminate Ea |].
  cbn [Re.atoms_ok Re.atom_ok] in Ea. rewrite andb_true_r in Ea.
  apply Ascii.eqb_eq in Ea. subst c2.
  exists d1, d2, rest.
  assert (Hs : d1 ++ "."%char :: d2 ++ "%"%char :: rest
               = (d1 ++ "."%char :: d2) ++ "%"%char :: rest).
  { now rewrite <- app_assoc. }
  assert (Hm : firstn (length (d1 ++ "."%char :: d2 ++ "%"%char :: rest)
                       - length ("%"%char :: rest))
                      (d1 ++ "."%char :: d2 ++ "%"%char :: rest)
               = d1 ++ "."%char :: d2).
  { rewrite Hs, length_app, Nat.add_sub.
    rewrite <- (Nat.add_0_r (length (d1 ++ "."%char :: d2))).
    rewrite firstn_app_2. simpl. now rewrite app_nil_r. }
  rewrite Hm. split; [reflexivity | split; [exact Hs | now split]].
Qed.

Lemma findall_from_match (p : Re.pattern) (s : list ascii) :
  forall before skip m,
    In m (Re.findall_from p before skip s) ->
    exists before' s', Re.match_at p before' s' = Some m.
Proof.
  induction s as [| c s IH]; intros before skip m H.
  - destruct skip; simpl in H; [| contradiction].
    destruct (Re.match_at p before []) as [m0 |] eqn:E; [| contradiction].
    destruct H as [<- | []]. eauto.
  - destruct skip; simpl in H; [| now apply IH in H].
    destruct (Re.match_at p before (c :: s)) as [m0 |] eqn:E.
    + destruct H as [<- | H]; [eauto | now apply IH in H].
    + now apply IH in H.
Qed.

Lemma span_digits_app (d r : list ascii) :
  Forall (fun c => Py.is_digit c = true) d ->
  (forall c r', r = c :: r' -> Py.is_digit c = false) ->
  Py.span_digits (d ++ r) = (d, r).
Proof.
  intros Hd Hr. induction Hd as [| c d Hc _ IH]; cbn [app Py.span_digits].
  - destruct r as [| c r']; [reflexivity |].
    cbn [Py.span_digits]. now rewrite (Hr c r' eq_refl).
  - now rewrite Hc, IH.
Qed.

Lemma float_of_text_shape (d1 d2 : list ascii) :
  Forall (fun c => Py.is_digit c = true) d1 ->
  Forall (fun c => Py.is_digit c = true) d2 ->
  Py.float_of_text (d1 ++ "."%char :: d2)
  = match d1 ++ d2 with
    | [] => None
    | _ :: _ => Some (Py.digits_val 0 (d1 ++ d2) # Py.pow10 (length d2))
    end.
Proof.
  intros H1 H2. unfold Py.float_of_text.
  rewrite span_digits_app; [| exact H1 |].
  - rewrite <- (app_nil_r d2) at 1.
    rewrite span_digits_app; [| exact H2 | discriminate]. reflexivity.
  - intros c r' E. now injection E as <- _.
Qed.

(** The value [grab_percentage] reads, by the first match. *)
Lemma grab_percentage_value :
  forall line,
    match Re.findall re_line_pct line with
    | [] =>
        grab_percentage line = ([], Raise (BrokenRegexException "re_line_pct"))
    | m :: _ =>
        exists d1 d2,
          m = d1 ++ "."%char :: d2
          /\ Forall (fun c => Py.is_digit c = true) d1
          /\ Forall (fun c => Py.is_digit c = true) d2
          /\ grab_percentage line
             = match d1 ++ d2 with
               | [] => ([], Raise ValueError)
               | _ :: _ =>
                   ([], Return (Py.digits_val 0 (d1 ++ d2)
                                # Py.pow10 (length d2)))
               end
    end.
Proof.
  intros line. unfold grab_percentage.
  destruct (Re.findall re_line_pct line) as [| m ms] eqn:E; [reflexivity |].
  assert (Hin : In m (Re.findall re_line_pct line)) by (rewrite E; now left).
  apply findall_from_match in Hin. destruct Hin as [b [s Hm]].
  apply match_line_pct_shape in Hm.
  destruct Hm as [d1 [d2 [rest [-> [_ [H1 H2]]]]]].
  exists d1, d2. repeat split; try assumption.
  unfold Py.py_float. rewrite float_of_text_shape by assumption.
  now destruct (d1 ++ d2).
Qed.

(** ** No negative coverage *)

Lemma digit_val_nonneg (c : ascii) :
  Py.is_digit c = true -> (0 <= Py.digit_val c)%Z.
Proof.
  unfold Py.is_digit, Py.digit_val. intros H.
  apply andb_true_iff in H. destruct H as [H _]. apply N.leb_le in H. lia.
Qed.

Lemma digits_val_nonneg (ds : list ascii) : forall acc,
  (0 <= acc)%Z -> Forall (fun c => Py.is_digit c = true) ds ->
  (0 <= Py.digits_val acc ds)%Z.
Proof.
  induction ds as [| d ds IH]; intros acc Ha H; cbn [Py.digits_val];
    [exact Ha |].
  inversion H as [| d' ds' Hd Hds]; subst. apply IH; [| exact Hds].
  pose proof (digit_val_nonneg d Hd). lia.
Qed.

Lemma grab_percentage_nonneg line q :
  outcome (grab_percentage line) = Return q -> (0 <= q)%Q.
Proof.
  intros H. pose proof (grab_percentage_value line) as Hv.
  destruct (Re.findall re_line_pct line) as [| m ms].
  - rewrite Hv in H. discriminate H.
  - destruct Hv as [d1 [d2 [_ [H1 [H2 Hv]]]]]. rewrite Hv in H.
    destruct (d1 ++ d2) as [| c l] eqn:E; [discriminate H |].
    injection H as <-.
    change (0 <= Py.digits_val 0 (c :: l) * 1)%Z. rewrite Z.mul_1_r.
    apply digits_val_nonneg; [lia |]. rewrite <- E.
    apply Forall_app. now split.
Qed.

(** X8.  What [test_package] reads on a line of the window: when the
    line holds no match of [re_line_pct] it raises
    [BrokenRegexException]; otherwise the first match is digits, a dot
    and digits, and the value is [float] of that text, which is not
    negative, except for the lone dot (as in [".%"]), on which [float]
    raises [ValueError]. *)
Theorem X8_value_read_on_a_line :
  forall line,
    match Re.findall re_line_pct line with
    | [] =>
        grab_percentage line = ([], Raise (BrokenRegexException "re_line_pct"))
    | m :: _ =>
        exists d1 d2,
          m = d1 ++ "."%char :: d2
          /\ Forall (fun c => Py.is_digit c = true) d1
          /\ Forall (fun c => Py.is_digit c = true) d2
          /\ match d1 ++ d2 with
             | [] => grab_percentage line = ([], Raise ValueError)
             | _ :: _ =>
                 exists q,
                   Py.py_float m = ([], Return q)
                   /\ grab_percentage line = ([], Return q)
                   /\ (0 <= q)%Q
             end
    end.
Proof.
  intros line. pose proof (grab_percentage_value line) as Hv.
  pose proof (grab_percentage_nonneg line) as Hpos.
  unfold grab_percentage in *.
  destruct (Re.findall re_line_pct line) as [| m ms]; [exact Hv |].
  destruct Hv as [d1 [d2 [Hm [H1 [H2 Hv]]]]].
  exists d1, d2. repeat split; try assumption.
  destruct (d1 ++ d2) as [| c l]; [exact Hv |].
  eexists. split; [exact Hv | split; [exact Hv |]].
  apply Hpos. now rewrite Hv.
Qed.

Lemma scan_line_nonneg pkg sup st line st' :
  scan_nonneg st ->
  outcome (scan_line pkg sup st line) = Return st' ->
  scan_nonneg st'.
Proof.
  intros [Hp [Hl Hf]] H. rewrite outcome_scan_line in H.
  apply outcome_bind_Return in H. destruct H as [st1 [H1 H]].
  assert (Hst1 : scan_nonneg st1).
  { destruct (get_pkg_percentages st).
    - destruct (pcts st) as [| p0 tl] eqn:Ep.
      + apply outcome_bind_Return in H1. destruct H1 as [val [Hv H1]].
        apply grab_percentage_nonneg in Hv.
        cbn [outcome ret snd] in H1. injection H1 as E1. rewrite <- E1.
        unfold scan_nonneg. cbn [pcts line_coverage function_coverage].
        rewrite ?Ep. rewrite ?Ep in Hp. repeat split; try assumption.
        repeat constructor. exact Hv.
      + apply outcome_bind_Return in H1. destruct H1 as [val [Hv H1]].
        apply grab_percentage_nonneg in Hv.
        cbn [outcome ret snd] in H1. injection H1 as E1. rewrite <- E1.
        unfold scan_nonneg. cbn [pcts line_coverage function_coverage].
        rewrite ?Ep. rewrite ?Ep in Hp. repeat split; try assumption.
        apply (proj2 (Forall_app _ (p0 :: tl) [val])).
        split; [exact Hp | repeat constructor; exact Hv].
    - cbn [outcome ret snd] in H1. injection H1 as E1. rewrite <- E1.
      now repeat split. }
  cbn [outcome ret snd] in H. injection H as E. rewrite <- E.
  destruct (is_header line); [| exact Hst1].
  exact Hst1.
Qed.

Lemma scan_lines_nonneg pkg sup lines : forall st st',
  scan_nonneg st ->
  outcome (scan_lines pkg sup lines st) = Return st' ->
  scan_nonneg st'.
Proof.
  induction lines as [| line rest IH]; intros st st' Hinv H; simpl in H.
  - injection H as <-. exact Hinv.
  - apply outcome_bind_Return in H. destruct H as [st1 [H1 H]].
    eapply IH; [| exact H]. eapply scan_line_nonneg; eauto.
Qed.

Lemma scan_init_nonneg : scan_nonneg scan_init.
Proof. repeat split; [constructor | discriminate | discriminate]. Qed.

(** What a normal return of [test_package] leaves. *)
Lemma test_package_Return w pkg extra_args bt sup v total pkg' :
  outcome (test_package w pkg extra_args bt sup v) = Return (total, pkg') ->
  (0 <= total)%Q
  /\ (hasTestDir w (Pkg.path pkg) = false -> total = 0 # 1 /\ pkg' = pkg)
  /\ (hasTestDir w (Pkg.path pkg) = true ->
      exists cl cf,
        pkg' = Pkg.set_coverage pkg cl cf total
        /\ (0 <= cl)%Q /\ (0 <= cf)%Q).
Proof.
  intros H. destruct (hasTestDir w (Pkg.path pkg)) eqn:Ht.
  - rewrite test_package_outcome in H by exact Ht.
    apply outcome_bind_Return in H. destruct H as [st [Hs H]].
    apply scan_lines_nonneg in Hs; [| exact scan_init_nonneg].
    destruct Hs as [Hp [Hl Hf]]. unfold after_scan in H.
    destruct (pcts st) as [| a [| b tl]]; try discriminate H.
    simpl in H. injection H as <- <-.
    inversion Hp as [| a' l' Ha Hp']; subst.
    inversion Hp' as [| b' l'' Hb _]; subst.
    split; [| split; [discriminate |]].
    + apply Qle_shift_div_l; [reflexivity |].
      rewrite Qmult_0_l, Qplus_0_l, <- (Qplus_0_r 0).
      now apply Qplus_le_compat.
    + intros _. now exists (line_coverage st), (function_coverage st).
  - rewrite test_package_no_tests in H by exact Ht. injection H as <- <-.
    split; [discriminate | split; [now split | discriminate]].
Qed.

(** X9.  [test_package] never returns or stores a negative coverage
    (the pattern reads no sign), and it touches nothing but the three
    coverage attributes: a normal return leaves the package as it was
    with [coverage_lines], [coverage_functions] and [coverage_total]
    set to values that are not negative, [coverage_total] being the
    value returned; without a test directory it returns 0 and leaves
    the package as it was. *)
Theorem X9_no_negative_coverage_and_frame :
  forall w pkg extra_args bt sup v total pkg',
    outcome (test_package w pkg extra_args bt sup v) = Return (total, pkg') ->
    (0 <= total)%Q
    /\ (hasTestDir w (Pkg.path pkg) = false -> total = 0 # 1 /\ pkg' = pkg)
    /\ (hasTestDir w (Pkg.path pkg) = true ->
        exists cl cf,
          pkg' = Pkg.set_coverage pkg cl cf total
          /\ (0 <= cl)%Q /\ (0 <= cf)%Q).
Proof. exact test_package_Return. Qed.

Lemma X9_witness :
  outcome (test_package (sample_world true stream_ok) pkg_a
             default_extra_args default_build_type true false)
  = Return ((18550 # 200)%Q, Pkg.set_coverage pkg_a 85.5 100.0 (18550 # 200))
  /\ (0 <= 18550 # 200)%Q.
Proof.
  assert (H : outcome (test_package (sample_world true stream_ok) pkg_a
                         default_extra_args default_build_type true false)
              = Return ((18550 # 200)%Q,
                        Pkg.set_coverage pkg_a 85.5 100.0 (18550 # 200)))
    by (vm_compute; reflexivity).
  split; [exact H |].
  exact (proj1 (X9_no_negative_coverage_and_frame _ _ _ _ _ _ _ _ H)).
Defined.

(** ** Echoing the runner's output *)

Lemma trace_bind {A B} (c : M A) (k : A -> M B) :
  trace (bind c k)
  = trace c ++ match outcome c with
               | Return a => trace (k a)
               | _ => []
               end.
Proof.
  destruct c as [t [a | e | m]]; simpl; try now rewrite app_nil_r.
  now destruct (k a).
Qed.

Lemma echoed_app (t1 t2 : list event) :
  echoed (t1 ++ t2) = echoed t1 ++ echoed t2.
Proof.
  induction t1 as [| e t1 IH]; simpl; [reflexivity |].
  destruct e; simpl; now rewrite IH.
Qed.

Lemma grab_percentage_trace line : trace (grab_percentage line) = [].
Proof.
  unfold grab_percentage, Py.py_float.
  destruct (Re.findall re_line_pct line) as [| m0 ms]; [reflexivity |].
  now destruct (Py.float_of_text m0).
Qed.

(** A turn of the loop writes the line, unless told not to, and
    nothing else. *)
Lemma scan_line_trace pkg sup st line :
  trace (scan_line pkg sup st line)
  = if sup then [] else [StdoutWrite line].
Proof.
  unfold scan_line. rewrite re_failed_test_never_matches.
  rewrite trace_bind.
  assert (H0 : forall X : M scan,
             trace X = [] ->
             trace (st1 <- X ;;
                    failed <- gt_zero (FailedInt 0) ;;
                    (if (failed : bool)
                     then emit (StderrUnitTestsFailed (Pkg.name pkg)) ;;
                          raise TestFailedException
                     else ret
                            match Re.re_match re_coverage_pct line with
                            | Some _ =>
                                {| pcts := pcts st1;
                                   get_pkg_percentages := true;
                                   line_coverage := line_coverage st1;
                                   function_coverage := function_coverage st1 |}
                            | None => st1
                            end)) = []).
  { intros [t [st1 | e | m]] Ht; simpl in *; subst t; reflexivity. }
  assert (H1 : trace (if get_pkg_percentages st
                      then match pcts st with
                           | [] =>
                               val <- grab_percentage line ;;
                               ret {| pcts := pcts st ++ [val];
                                      get_pkg_percentages :=
                                        get_pkg_percentages st;
                                      line_coverage := val;
                                      function_coverage :=
                                        function_coverage st |}
                           | _ :: _ =>
                               val <- grab_percentage line ;;
                               ret {| pcts := pcts st ++ [val];
                                      get_pkg_percentages := false;
                                      line_coverage := line_coverage st;
                                      function_coverage := val |}
                           end
                      else ret st) = []).
  { destruct (get_pkg_percentages st); [| reflexivity].
    destruct (pcts st); rewrite trace_bind, grab_percentage_trace;
      now destruct (outcome (grab_percentage line)). }
  destruct sup; cbn [negb when]; cbn [outcome emit ret snd trace fst];
    rewrite (H0 _ H1); reflexivity.
Qed.

Lemma scan_lines_trace pkg sup lines : forall st,
  exists n,
    trace (scan_lines pkg sup lines st)
    = (if sup then [] else map StdoutWrite (firstn n lines))
    /\ (forall st', outcome (scan_lines pkg sup lines st) = Return st' ->
                    n = length lines).
Proof.
  induction lines as [| line rest IH]; intros st; cbn [scan_lines].
  - exists 0%nat. split; [now destruct sup | reflexivity].
  - rewrite trace_bind, scan_line_trace.
    destruct (outcome (scan_line pkg sup st line)) as [st1 | e | m] eqn:E.
    + destruct (IH st1) as [n [Ht Hn]]. exists (S n). split.
      * rewrite Ht. now destruct sup.
      * intros st' H. rewrite (outcome_bind_eq _ _ st1 E) in H.
        simpl. f_equal. now apply (Hn st').
    + exists 1%nat. split; [now destruct sup |].
      intros st' H. destruct (scan_line pkg sup st line) as [t o].
      simpl in E. subst o. discriminate H.
    + exists 1%nat. split; [now destruct sup |].
      intros st' H. destruct (scan_line pkg sup st line) as [t o].
      simpl in E. subst o. discriminate H.
Qed.

Lemma echoed_map_StdoutWrite (lines : list string) :
  echoed (map StdoutWrite lines) = lines.
Proof. induction lines as [| l ls IH]; simpl; [reflexivity | now rewrite IH]. Qed.

Lemma scan_lines_outcome_quiet pkg lines : forall st,
  outcome (scan_lines pkg true lines st)
  = outcome (scan_lines pkg false lines st).
Proof.
  induction lines as [| line rest IH]; intros st; cbn [scan_lines];
    [reflexivity |].
  assert (E : outcome (scan_line pkg true st line)
              = outcome (scan_line pkg false st line))
    by now rewrite !outcome_scan_line.
  destruct (scan_line pkg true st line) as [t1 o1].
  destruct (scan_line pkg false st line) as [t2 o2].
  simpl in E. subst o2. destruct o1 as [st1 | e | m]; try reflexivity.
  rewrite !(outcome_bind_eq _ _ st1) by reflexivity. apply IH.
Qed.

Lemma after_scan_echo pkg cmd st :
  echoed (trace (after_scan pkg cmd st)) = [].
Proof.
  unfold after_scan. now destruct (pcts st) as [| a [| b tl]].
Qed.

(** X10.  [suppress_catkin_output] decides the echo and nothing else.
    With it, [test_package] writes none of the runner's lines; without
    it, it writes the lines it has read, in order: all of them when the
    call returns for a package with a test directory, the lines up to
    the one that raised otherwise, and none for a package without a
    test directory.  Either way the call ends the same. *)
Theorem X10_quiet_only_silences_the_echo :
  forall w pkg extra_args bt v,
    echoed (trace (test_package w pkg extra_args bt true v)) = []
    /\ outcome (test_package w pkg extra_args bt true v)
       = outcome (test_package w pkg extra_args bt false v)
    /\ exists n,
         echoed (trace (test_package w pkg extra_args bt false v))
         = firstn n (process_stdout w (test_cmd pkg extra_args))
         /\ (hasTestDir w (Pkg.path pkg) = false -> n = 0%nat)
         /\ (hasTestDir w (Pkg.path pkg) = true ->
             forall r,
               outcome (test_package w pkg extra_args bt false v) = Return r ->
               n = length (process_stdout w (test_cmd pkg extra_args))).
Proof.
  intros w pkg extra_args bt v.
  assert (Hpre : forall sup,
             echoed (trace (test_package w pkg extra_args bt sup v))
             = if hasTestDir w (Pkg.path pkg)
               then echoed (trace (scan_lines pkg sup
                                     (process_stdout w
                                        (test_cmd pkg extra_args))
                                     scan_init))
               else []).
  { intros sup. unfold test_package, when, print, emit.
    destruct v; rewrite ?bind_ret_l, !bind_Return;
      cbn [trace fst outcome snd];
      destruct (hasTestDir w (Pkg.path pkg)); cbn [negb];
      rewrite ?trace_bind; cbn [app echoed]; rewrite ?echoed_app;
      try reflexivity;
      (destruct (outcome (scan_lines pkg sup _ scan_init)) as [st | e | m];
       [rewrite after_scan_echo |..]; now rewrite app_nil_r). }
  split; [| split].
  - rewrite Hpre. destruct (hasTestDir w (Pkg.path pkg)); [| reflexivity].
    destruct (scan_lines_trace pkg true
                (process_stdout w (test_cmd pkg extra_args)) scan_init)
      as [n [Ht _]].
    now rewrite Ht.
  - destruct (hasTestDir w (Pkg.path pkg)) eqn:Ht.
    + rewrite !test_package_outcome by exact Ht.
      pose proof (scan_lines_outcome_quiet pkg
                    (process_stdout w (test_cmd pkg extra_args)) scan_init)
        as E.
      destruct (scan_lines pkg true _ scan_init) as [t1 o1].
      destruct (scan_lines pkg false _ scan_init) as [t2 o2].
      simpl in E. subst o2. destruct o1 as [st | e | m]; try reflexivity.
      now rewrite !(outcome_bind_eq _ _ st) by reflexivity.
    + now rewrite !test_package_no_tests by exact Ht.
  - rewrite Hpre. destruct (hasTestDir w (Pkg.path pkg)) eqn:Ht.
    + destruct (scan_lines_trace pkg false
                  (process_stdout w (test_cmd pkg extra_args)) scan_init)
        as [n [Htr Hn]].
      exists n. rewrite Htr, echoed_map_StdoutWrite.
      split; [reflexivity | split; [discriminate |]].
      intros _ r H. rewrite test_package_outcome in H by exact Ht.
      apply outcome_bind_Return in H. destruct H as [st [Hs _]].
      now apply (Hn st).
    + exists 0%nat. split; [reflexivity | split; [reflexivity | discriminate]].
Qed.

(** ** The second loop of the script *)

Lemma outcome_bind_Raise_l {A B} (c : M A) (k : A -> M B) (e : exn) :
  outcome c = Raise e -> outcome (bind c k) = Raise e.
Proof.
  destruct c as [t [a | x | m]]; simpl; try discriminate.
  intros H. now injection H as ->.
Qed.

Lemma outcome_bind_SysExit_l {A B} (c : M A) (k : A -> M B) (m : exit_msg) :
  outcome c = SysExit m -> outcome (bind c k) = SysExit m.
Proof.
  destruct c as [t [a | x | m']]; simpl; try discriminate.
  intros H. now injection H as ->.
Qed.

Lemma test_one_Return w q v pkg pkg' added :
  outcome (test_one w q v pkg) = Return (pkg', added) ->
  added = [] /\ tested pkg pkg'.
Proof.
  unfold test_one. rewrite outcome_try_except.
  destruct (Pkg.hasTestDir pkg) eqn:Hflag.
  - destruct (outcome (test_package w pkg default_extra_args
                         default_build_type q v)) as [[t p'] | e | m] eqn:E.
    + rewrite (outcome_bind_eq _ _ (t, p') E). cbn [fst snd].
      destruct (Py.truthy_Q t) eqn:Et; cbn [negb]; [| discriminate].
      intros H. cbn [outcome ret snd] in H. injection H as <- <-.
      split; [reflexivity |]. right. split; [exact Hflag |].
      destruct (test_package_Return _ _ _ _ _ _ _ _ E) as [Hpos [Hno Hyes]].
      destruct (hasTestDir w (Pkg.path pkg)) eqn:Ht.
      * destruct (Hyes eq_refl) as [cl [cf [-> [Hcl Hcf]]]].
        exists cl, cf, t. now repeat split.
      * destruct (Hno eq_refl) as [-> _]. discriminate Et.
    + rewrite (outcome_bind_Raise_l _ _ e E). apply test_package_Raise in E.
      destruct E as [-> | [-> | [-> | ->]]]; discriminate.
    + rewrite (outcome_bind_SysExit_l _ _ m E). discriminate.
  - intros H. cbn in H. injection H as <- <-.
    split; [reflexivity |]. now left.
Qed.

Lemma test_all_Return w q v pkgs : forall failed pkgs' failed',
  outcome (test_all w q v pkgs failed) = Return (pkgs', failed') ->
  failed' = failed /\ Forall2 tested pkgs pkgs'.
Proof.
  induction pkgs as [| pkg rest IH]; intros failed pkgs' failed' H;
    cbn [test_all] in H.
  - cbn in H. injection H as <- <-. split; [reflexivity | constructor].
  - apply outcome_bind_Return in H. destruct H as [[p' added] [H1 H]].
    apply outcome_bind_Return in H. destruct H as [[ps' f'] [H2 H]].
    cbn in H. injection H as <- <-.
    apply test_one_Return in H1. destruct H1 as [-> Ht].
    apply IH in H2. destruct H2 as [-> Hr]. cbn [snd fst].
    split; [now rewrite app_nil_r | now constructor].
Qed.

Lemma tested_name p p' : tested p p' -> Pkg.name p' = Pkg.name p
                                         /\ Pkg.path p' = Pkg.path p
                                         /\ Pkg.lineCount p' = Pkg.lineCount p.
Proof.
  intros [[_ ->] | [_ [cl [cf [t [-> _]]]]]]; now repeat split.
Qed.

(** X11.  When the second loop of the script ends normally, it has
    added no name to [failed_packages]; the packages are the same, in
    the same order, with the same names, paths and line counts; and a
    package that came in without a result leaves either without one
    (it has no [hasTestDir] flag) or with a total that is truthy, so no
    total of [0.0] reaches the report, and with coverages that are not
    negative. *)
Theorem X11_what_the_test_loop_leaves :
  forall w q v pkgs failed pkgs' failed',
    outcome (test_all w q v pkgs failed) = Return (pkgs', failed') ->
    failed' = failed
    /\ Forall2 tested pkgs pkgs'
    /\ map Pkg.name pkgs' = map Pkg.name pkgs
    /\ map Pkg.lineCount pkgs' = map Pkg.lineCount pkgs
    /\ (Forall (fun p => Pkg.coverage_total p = None) pkgs ->
        Forall (fun p' => (Pkg.coverage_total p' = None
                           \/ has_truthy_result p' = true)
                          /\ (0 <= coverage_of p')%Q) pkgs').
Proof.
  intros w q v pkgs failed pkgs' failed' H.
  apply test_all_Return in H. destruct H as [-> Hr].
  split; [reflexivity | split; [exact Hr |]].
  split; [| split].
  - induction Hr as [| p p' ps ps' Hp _ IH]; simpl; [reflexivity |].
    destruct (tested_name p p' Hp) as [-> _]. now rewrite IH.
  - induction Hr as [| p p' ps ps' Hp _ IH]; simpl; [reflexivity |].
    destruct (tested_name p p' Hp) as [_ [_ ->]]. now rewrite IH.
  - intros Hnone. induction Hr as [| p p' ps ps' Hp _ IH]; [constructor |].
    inversion Hnone as [| p0 ps0 Hp0 Hps0]; subst.
    constructor; [| now apply IH].
    destruct Hp as [[_ ->] | [_ [cl [cf [t [-> [Ht [_ [_ Hpos]]]]]]]]].
    + unfold coverage_of. rewrite Hp0. split; [now left | discriminate].
    + split; [right; exact Ht | exact Hpos].
Qed.

Lemma X11_witness :
  outcome (test_all (sample_world true stream_ok) true false [pkg_a] [])
  = Return ([Pkg.set_coverage pkg_a 85.5 100.0 (18550 # 200)], [])
  /\ map Pkg.name [Pkg.set_coverage pkg_a 85.5 100.0 (18550 # 200)]
     = map Pkg.name [pkg_a].
Proof.
  assert (H : outcome (test_all (sample_world true stream_ok) true false
                         [pkg_a] [])
              = Return ([Pkg.set_coverage pkg_a 85.5 100.0 (18550 # 200)], []))
    by (vm_compute; reflexivity).
  split; [exact H |].
  exact (proj1 (proj2 (proj2 (X11_what_the_test_loop_leaves _ _ _ _ _ _ _ H)))).
Defined.

(** ** The report without any result *)

Lemma print_summaries_unavailable (pkgs : list Package) : forall T V,
  Forall (fun p => has_truthy_result p = false) pkgs ->
  print_summaries (map PkgObj pkgs) T V
  = (map (fun p => Print (MsgUnavailable (Pkg.name p) (Pkg.path p))) pkgs,
     Return (T, V)).
Proof.
  intros T V. induction 1 as [| p rest Hp _ IH]; [reflexivity |].
  cbn [map print_summaries as_package]. rewrite bind_ret_l.
  unfold has_truthy_result, Py.truthy_opt in Hp.
  destruct (Pkg.coverage_total p) as [c |]; [rewrite Hp |];
    rewrite IH; reflexivity.
Qed.

Lemma lt_int_zero (t : Z) : lt_int (0 # 1) t = (0 <? t)%Z.
Proof.
  unfold lt_int, Qle_bool. simpl. rewrite Z.mul_1_r.
  destruct (Z.leb_spec t 0), (Z.ltb_spec 0 t); simpl; try reflexivity; lia.
Qed.

(** X14.  When no package has a usable result (none was tested, or
    every total is [None] or [0.0]) the report divides nothing: it
    prints each package as unavailable, then a total of 0, and then
    every positive threshold makes it exit with status 1, while no
    threshold, 0 or a negative one let it return. *)
Theorem X14_report_without_any_result :
  forall w pkgs failed threshold verbose summaries,
    pkgs <> [] ->
    Forall (fun p => has_truthy_result p = false) pkgs ->
    print_results w (map PkgObj pkgs) (Some []) failed threshold verbose
                  summaries
    = (map (fun p => Print (MsgUnavailable (Pkg.name p) (Pkg.path p))) pkgs
       ++ report_tail w verbose (0 # 1),
       match threshold with
       | Some t => if (0 <? t)%Z
                   then SysExit (ExitBelowThreshold t)
                   else Return tt
       | None => Return tt
       end).
Proof.
  intros w pkgs failed threshold verbose summaries Hne Hun.
  rewrite (print_results_eq w pkgs failed threshold verbose summaries
             (map (fun p => Print (MsgUnavailable (Pkg.name p) (Pkg.path p)))
                  pkgs) (0 # 1) Hne).
  - f_equal. unfold check_threshold. destruct threshold as [t |];
      [| reflexivity].
    rewrite lt_int_zero. unfold Py.truthy_Z, round2_int.
    destruct (Z.eqb_spec t 0) as [-> | Ht]; [reflexivity |].
    now destruct (0 <? t)%Z.
  - unfold aggregate. rewrite (print_summaries_unavailable pkgs 0%Z [] Hun).
    unfold bind. cbn [fst snd weigh ret]. now rewrite app_nil_r.
Qed.

Lemma X14_witness :
  print_results (sample_world true []) (map PkgObj [pkg_a]) (Some []) None
                (Some 10%Z) false true
  = ([Print (MsgUnavailable "a" "/ws/src/a")]
     ++ report_tail (sample_world true []) false (0 # 1),
     SysExit (ExitBelowThreshold 10)).
Proof.
  apply (X14_report_without_any_result (sample_world true []) [pkg_a] None
           (Some 10%Z) false true).
  - discriminate.
  - repeat constructor.
Defined.

(** ** The printed total *)

Lemma round_half_even_close (x : Q) :
  (inject_Z (round_half_even x) - x <= 1 # 2)%Q
  /\ (x - inject_Z (round_half_even x) <= 1 # 2)%Q.
Proof.
  unfold round_half_even.
  pose proof (Qfloor_le x) as H1. pose proof (Qlt_floor x) as H2.
  rewrite inject_Z_plus in H2. change (inject_Z 1) with (1 # 1)%Q in H2.
  destruct (Qcompare_spec (x - inject_Z (Qfloor x)) (1 # 2)) as [E | E | E].
  - destruct (Z.even (Qfloor x)); rewrite ?inject_Z_plus;
      change (inject_Z 1) with (1 # 1)%Q; split; lra.
  - split; lra.
  - rewrite inject_Z_plus. change (inject_Z 1) with (1 # 1)%Q. split; lra.
Qed.

Lemma round_half_even_Z (x : Q) (n : Z) :
  (x == inject_Z n)%Q -> round_half_even x = n.
Proof.
  intros E. unfold round_half_even.
  assert (F : Qfloor x = n) by (rewrite (Qfloor_comp _ _ E); apply Qfloor_Z).
  rewrite F.
  assert (C : (x - inject_Z n ?= 1 # 2)%Q = Lt).
  { apply Qlt_alt. rewrite E.
    assert (Z0 : (inject_Z n - inject_Z n == 0)%Q) by ring.
    rewrite Z0. reflexivity. }
  now rewrite C.
Qed.

(** X15.  The total the report prints, [round(total, 2)], is within
    half a hundredth of the total computed, and a total that is a whole
    number of hundredths is printed as it is. *)
Theorem X15_printed_total_is_within_half_a_hundredth :
  (forall total,
      (round2 total - total <= 1 # 200)%Q
      /\ (total - round2 total <= 1 # 200)%Q)
  /\ (forall n,
         (round2 (inject_Z n / inject_Z 100) == inject_Z n / inject_Z 100)%Q).
Proof.
  split.
  - intros q. unfold round2.
    destruct (round_half_even_close (q * inject_Z 100)) as [H1 H2].
    set (r := inject_Z (round_half_even (q * inject_Z 100))) in *.
    change (inject_Z 100) with (100 # 1)%Q in *. split.
    + assert (E : (r / (100 # 1) - q == (r - q * (100 # 1)) * (1 # 100))%Q)
        by (unfold Qdiv; field).
      rewrite E. lra.
    + assert (E : (q - r / (100 # 1) == (q * (100 # 1) - r) * (1 # 100))%Q)
        by (unfold Qdiv; field).
      rewrite E. lra.
  - intros n. unfold round2.
    rewrite (round_half_even_Z _ n); [reflexivity |].
    field; discriminate.
Qed.

(** ** The header *)

(** A pattern made of plain characters matches at a position exactly
    when the text from there starts with them. *)
Lemma run_literal (p : string) : forall s before,
  match Re.run (map Re.One (Re.lit p)) (fun _ rest => Some rest) before
               (list_ascii_of_string s) with
  | Some _ => true
  | None => false
  end = String.prefix p s.
Proof.
  induction p as [| c p IH]; intros s before.
  - destruct s; reflexivity.
  - destruct s as [| x s]; [reflexivity |].
    cbn [Re.lit list_ascii_of_string map Re.run Re.atom_ok String.prefix].
    change (map Re.One (map Re.Chr (list_ascii_of_string p)))
      with (map Re.One (Re.lit p)).
    destruct (Ascii.eqb_spec c x) as [-> | Hne].
    + destruct (ascii_dec x x) as [_ | N]; [apply IH | contradiction].
    + destruct (ascii_dec c x) as [E | _]; [contradiction | reflexivity].
Qed.

(** X16.  The header is seen only at the start of a line: [re.match]
    with [re_coverage_pct] succeeds exactly on the lines that start
    with [Overall coverage rate:], so a header that is indented, or
    that follows other text on its line, does not open the window. *)
Theorem X16_header_only_at_line_start :
  forall line,
    is_header line = String.prefix "Overall coverage rate:" line.
Proof.
  intros line. unfold is_header, Re.re_match, Re.match_at, re_coverage_pct.
  rewrite <- (run_literal "Overall coverage rate:" line []).
  now destruct (Re.run _ _ [] (list_ascii_of_string line)).
Qed.

(** ** The testing loop on packages in order *)

Lemma test_one_testable w q v p :
  testable w p ->
  exists p',
    outcome (test_one w q v p) = Return (p', []) /\ has_been_tested w p p'.
Proof.
  intros [Hf [Ht [x [y [Hrep Hnz]]]]].
  pose proof Hrep as Hrep'.
  destruct Hrep as [pre [h [l1 [l2 [post [Hs [H1 [H2 [H3 [H4 [H5 H6]]]]]]]]]]].
  destruct (test_package_two_values w p default_extra_args default_build_type
              q v (scan_done x y) x y Ht) as [total [Hout Htot]].
  { rewrite Hs. now apply scan_lines_report. }
  { reflexivity. }
  assert (Htr : Py.truthy_Q total = true).
  { apply truthy_Q_spec. intros E. apply Hnz. now rewrite <- Htot. }
  exists (Pkg.set_coverage p x y total). split.
  - unfold test_one. rewrite Hf, outcome_try_except.
    rewrite (outcome_bind_eq _ _ _ Hout). cbn [fst snd]. now rewrite Htr.
  - now exists x, y, total.
Qed.

(** X18.  On packages in order the testing loop of the script runs to
    the end.  When each package has a test directory and a build whose
    output holds a coverage report (lines without header, the header, a
    line with a value, a line with a value that is no header, lines
    without header) with a mean that is not zero, the loop ends
    normally, adds nothing to [failed_packages], and leaves each
    package with the two values of its own report as [coverage_lines]
    and [coverage_functions] and their mean as [coverage_total]. *)
Theorem X18_testing_loop_gives_each_package_its_report :
  forall w q v pkgs failed,
    Forall (testable w) pkgs ->
    exists pkgs',
      outcome (test_all w q v pkgs failed) = Return (pkgs', failed)
      /\ Forall2 (has_been_tested w) pkgs pkgs'.
Proof.
  intros w q v pkgs failed H. revert failed.
  induction H as [| p rest Hp _ IH]; intros failed; cbn [test_all].
  - exists []. split; [reflexivity | constructor].
  - destruct (test_one_testable w q v p Hp) as [p' [H1 Ht]].
    destruct (IH failed) as [rest' [H2 Hr]].
    exists (p' :: rest'). split; [| now constructor].
    rewrite (outcome_bind_eq _ _ _ H1). cbn [fst snd]. rewrite app_nil_r.
    now rewrite (outcome_bind_eq _ _ _ H2).
Qed.

Lemma X18_witness :
  exists pkgs',
    outcome (test_all (sample_world true stream_ok) true false [pkg_a] [])
    = Return (pkgs', [])
    /\ Forall2 (has_been_tested (sample_world true stream_ok)) [pkg_a] pkgs'.
Proof.
  apply (X18_testing_loop_gives_each_package_its_report
           (sample_world true stream_ok) true false [pkg_a] []).
  constructor; [| constructor].
  split; [reflexivity |]. split; [reflexivity |].
  exists 85.5%Q, 100.0%Q. split; [| discriminate].
  exists [], header_line, (lines_line "85.5"), (functions_line "100.0"), [].
  split; [reflexivity |]. split; [constructor |].
  split; [reflexivity |]. split; [vm_compute; reflexivity |].
  split; [vm_compute; reflexivity |]. split; [reflexivity | constructor].
Defined.

(** ** The script with nothing to report, or with a name not found *)

(** X19.  Run without any package name, the script exits with the "no
    coverage data generated" message.  Run with names of which the
    locator does not know one or more, it ends with [ValueError]
    whenever the testing of the packages found ends normally: the
    report is never printed. *)
Theorem X19_no_name_or_an_unknown_name :
  forall w a,
    (script_names a = [] ->
     outcome (main w a) = SysExit ExitNoDataGenerated
     /\ process_status (outcome (main w a)) = 1%Z)
    /\ (forall pkgs' failed',
           outcome (test_all w (quiet a) (script_verbose a)
                      (map (located_package w)
                           (filter (fun n => negb (is_unfound w n))
                                   (script_names a))) [])
           = Return (pkgs', failed') ->
           filter (is_unfound w) (script_names a) <> [] ->
           outcome (main w a) = Raise ValueError).
Proof.
  intros w a.
  assert (Hmain : outcome (main w a)
                  = outcome
                      (tested <- test_all w (quiet a) (script_verbose a)
                                   (map (located_package w)
                                      (filter (fun n => negb (is_unfound w n))
                                              (script_names a))) [] ;;
                       print_results w (map PkgObj (fst tested))
                         (Some (filter (is_unfound w) (script_names a)))
                         (Some (snd tested)) (threshold a) false true)).
  { unfold main. fold (script_names a). fold (script_verbose a). cbv zeta.
    now rewrite (outcome_bind_eq _ _ _
                   (resolve_all_outcome w (script_verbose a)
                      (script_names a) [] [])). }
  split.
  - intros Hn. rewrite Hmain, Hn. now split.
  - intros pkgs' failed' Hta Hne. rewrite Hmain.
    rewrite (outcome_bind_eq _ _ _ Hta). cbn [fst snd].
    destruct (filter (is_unfound w) (script_names a)) as [| name rest];
      [contradiction |].
    now rewrite print_results_unfound.
Qed.

Lemma X19_witness :
  outcome (main (sample_world true stream_ok) args_a_b) = Raise ValueError.
Proof.
  apply (proj2 (X19_no_name_or_an_unknown_name (sample_world true stream_ok)
                  args_a_b)
           [Pkg.set_coverage pkg_a 85.5 100.0 (18550 # 200)] []).
  - vm_compute. reflexivity.
  - discriminate.
Defined.
